(** * Financial CRAG: the quality-gated retrieval pipeline

    A shallow embedding of [financial_crag.py]: the assessor's answer parser,
    the four workflow nodes, the routing rule, the graph wired in
    [FinancialCRAG.setup] and the [query] entry point, followed by the
    properties of the pipeline.

    Python strings are modelled by [string]; a character stands for a code
    point below 256, which is where [str_lower] and [str_strip] follow
    Python's tables.  External services (the vector store, the chat model,
    the Tavily client, yfinance, NewsAPI, Chroma) are fields of records and
    answer with a [result]: a value or a raised exception. *)

From Stdlib Require Import String Ascii List NArith Arith Bool Lia.
Import ListNotations.
Open Scope string_scope.

(** ** Python strings *)

Module PyStr.

Definition LF : string := String (ascii_of_nat 10) EmptyString.

(** The separator of ["\n\n".join(...)]. *)
Definition LFLF : string := LF ++ LF.

(** [str.lower] on one code point below 256: A-Z and the upper-case
    letters of U+00C0..U+00DE (the multiplication sign U+00D7 apart). *)
Definition lower_char (c : ascii) : ascii :=
  let n := N_of_ascii c in
  if ((65 <=? n) && (n <=? 90))%N then ascii_of_N (n + 32)
  else if ((192 <=? n) && (n <=? 222) && negb (n =? 215))%N
       then ascii_of_N (n + 32)
  else c.

Fixpoint str_lower (s : string) : string :=
  match s with
  | EmptyString => EmptyString
  | String c s' => String (lower_char c) (str_lower s')
  end.

(** [str.isspace] on one code point below 256. *)
Definition is_space (c : ascii) : bool :=
  let n := N_of_ascii c in
  (((9 <=? n) && (n <=? 13)) || ((28 <=? n) && (n <=? 32))
   || (n =? 133) || (n =? 160))%N.

Fixpoint str_lstrip (s : string) : string :=
  match s with
  | EmptyString => EmptyString
  | String c s' => if is_space c then str_lstrip s' else s
  end.

(** Drops trailing white space: a character is kept when something
    non-blank follows it or it is itself non-blank. *)
Fixpoint str_rstrip (s : string) : string :=
  match s with
  | EmptyString => EmptyString
  | String c s' =>
      match str_rstrip s' with
      | EmptyString => if is_space c then EmptyString
                       else String c EmptyString
      | r => String c r
      end
  end.

Definition str_strip (s : string) : string := str_rstrip (str_lstrip s).

Fixpoint starts_with (p s : string) : bool :=
  match p, s with
  | EmptyString, _ => true
  | String a p', String b s' => Ascii.eqb a b && starts_with p' s'
  | String _ _, EmptyString => false
  end.

(** [needle in hay]. *)
Fixpoint str_in (needle hay : string) : bool :=
  starts_with needle hay
  || match hay with
     | EmptyString => false
     | String _ hay' => str_in needle hay'
     end.

(** [s[:n]]. *)
Fixpoint str_take (n : nat) (s : string) : string :=
  match n, s with
  | O, _ => EmptyString
  | S _, EmptyString => EmptyString
  | S n', String c s' => String c (str_take n' s')
  end.

(** [sep.join(l)]. *)
Fixpoint str_join (sep : string) (l : list string) : string :=
  match l with
  | [] => EmptyString
  | [x] => x
  | x :: (_ :: _) as rest => x ++ sep ++ str_join sep rest
  end.

(** [bool(s)]: a string is truthy when it is not empty. *)
Definition str_bool (s : string) : bool :=
  match s with
  | EmptyString => false
  | String _ _ => true
  end.

End PyStr.
Import PyStr.

(** ** Exceptions, results and the trace of a run *)

(** An exception raised by a collaborator, an instance of [Exception]:
    its class name and [str(e)].  [KeyboardInterrupt] and [SystemExit],
    which [except Exception] lets through, are signals of the interpreter
    and not the outcome of a call. *)
Record exn : Type := PyExc { exn_class : string; exn_str : string }.

Inductive result (A : Type) : Type :=
| Ok (a : A)
| Raise (e : exn).
Arguments Ok {A} a.
Arguments Raise {A} e.

(** What an observer of one run sees: the nodes the graph executor enters
    and leaves, and the calls that reach the external services. *)
Inductive Event : Type :=
| NodeEnter (name : string)
| NodeExit (name : string)
| SimilaritySearch (query : string) (k : nat)
| LLMInvoke (messages : list (string * string))
| TavilySearch (query : string) (max_results : nat).

(** A computation that logs events and returns or raises. *)
Definition M (A : Type) : Type := (list Event * result A)%type.

Definition ret {A} (a : A) : M A := ([], Ok a).

Definition raise {A} (e : exn) : M A := ([], Raise e).

Definition bind {A B} (m : M A) (f : A -> M B) : M B :=
  match m with
  | (t, Ok a) => let (t', r) := f a in ((t ++ t')%list, r)
  | (t, Raise e) => (t, Raise e)
  end.

(** [try: m except Exception as e: h e]. *)
Definition try_except {A} (m : M A) (h : exn -> M A) : M A :=
  match m with
  | (t, Ok a) => (t, Ok a)
  | (t, Raise e) => let (t', r) := h e in ((t ++ t')%list, r)
  end.

Definition emit (ev : Event) : M unit := ([ev], Ok tt).

(** A call to an external service: logged, then its outcome. *)
Definition call {A} (ev : Event) (outcome : result A) : M A := ([ev], outcome).

Notation "x <- m ;; k" := (bind m (fun x => k))
  (at level 61, m at next level, right associativity).
Notation "m ;;; k" := (bind m (fun _ => k))
  (at level 61, right associativity).

Definition trace {A} (m : M A) : list Event := fst m.
Definition outcome {A} (m : M A) : result A := snd m.

(** ** Data model *)

(** [langchain.schema.Document]. *)
Record Document : Type := mkDocument {
  page_content : string;
  metadata : list (string * string)
}.

(** [CRAGState]; [quality] is a plain string, as in the source, where it
    starts as ["unknown"]. *)
Record CRAGState : Type := mkState {
  question : string;
  ticker : string;
  documents : list Document;
  web_results : string;
  generation : string;
  quality : string
}.

Definition set_documents (state : CRAGState) (v : list Document) : CRAGState :=
  mkState (question state) (ticker state) v (web_results state)
          (generation state) (quality state).

Definition set_web_results (state : CRAGState) (v : string) : CRAGState :=
  mkState (question state) (ticker state) (documents state) v
          (generation state) (quality state).

Definition set_generation (state : CRAGState) (v : string) : CRAGState :=
  mkState (question state) (ticker state) (documents state)
          (web_results state) v (quality state).

Definition set_quality (state : CRAGState) (v : string) : CRAGState :=
  mkState (question state) (ticker state) (documents state)
          (web_results state) (generation state) v.

(** ** External services *)

(** The chat model behind [prompt | llm | StrOutputParser()]: from the
    formatted messages (role, text) to the text of the completion. *)
Definition ChatOpenAI : Type := list (string * string) -> result string.

(** The Chroma store: [similarity_search(query, k)]. *)
Definition VectorStore : Type := string -> nat -> result (list Document).

(** One item of a Tavily response; [None] when the key ['content'] is
    missing. *)
Record TavilyItem : Type := mkItem { item_content : option string }.

(** A Tavily response; [None] when the key ['results'] is missing. *)
Record TavilyResponse : Type := mkResponse {
  response_results : option (list TavilyItem)
}.

(** [TavilyClient.search(query=..., max_results=...)]. *)
Definition TavilyClient : Type := string -> nat -> result TavilyResponse.

(** One article of a NewsAPI answer; [None] is Python's [None]. *)
Record Article : Type := mkArticle {
  publishedAt : string;
  title : string;
  description : option string;
  content : option string
}.

(** ** Data extraction *)

Module DataExtractor.

(** The extractor with the services it reaches.  [get_stock_data] formats
    floating-point figures of yfinance; the model takes the text it
    returns, or the exception it lets through, from [yf_stock_report].
    [yf_longName] is [yf.Ticker(ticker).info.get('longName')];
    [newsapi_get_everything] is the query for a company name, [None] when
    the answer has no key ['articles'] (the starting date of the query
    comes from the clock and is left out). *)
Record t : Type := mk {
  yf_stock_report : string -> result string;
  yf_longName : string -> result (option string);
  newsapi_get_everything : string -> result (option (list Article))
}.

Definition get_stock_data (self : t) (ticker : string) : result string :=
  yf_stock_report self ticker.

(** [article['description'] or article['content'][:200]]; slicing [None]
    is a [TypeError]. *)
Definition article_body (a : Article) : result string :=
  let from_content :=
    match content a with
    | Some c => Ok (str_take 200 c)
    | None => Raise (PyExc "TypeError" "'NoneType' object is not subscriptable")
    end in
  match description a with
  | Some d => if str_bool d then Ok d else from_content
  | None => from_content
  end.

Definition format_article (a : Article) : result string :=
  match article_body a with
  | Ok body =>
      Ok ("[" ++ str_take 10 (publishedAt a) ++ "] " ++ title a ++ LF ++ body)
  | Raise e => Raise e
  end.

(** The loop that fills [news_text]; it stops at the first exception. *)
Fixpoint format_articles (l : list Article) : result (list string) :=
  match l with
  | [] => Ok []
  | a :: l' =>
      match format_article a with
      | Raise e => Raise e
      | Ok s =>
          match format_articles l' with
          | Raise e => Raise e
          | Ok rest => Ok (s :: rest)
          end
      end
  end.

(** The body of the [try] of [get_news]. *)
Definition get_news_try (self : t) (ticker : string) : result string :=
  match yf_longName self ticker with
  | Raise e => Raise e
  | Ok longName =>
      let company_name :=
        match longName with Some n => n | None => ticker end in
      match newsapi_get_everything self company_name with
      | Raise e => Raise e
      | Ok articles =>
          let listed := match articles with Some l => l | None => [] end in
          match format_articles (firstn 10 listed) with
          | Raise e => Raise e
          | Ok news_text =>
              Ok (match news_text with
                  | [] => "No recent news."
                  | _ :: _ => str_join LFLF news_text
                  end)
          end
      end
  end.

(** The bare [except:] turns every failure into a fixed text. *)
Definition get_news (self : t) (ticker : string) : string :=
  match get_news_try self ticker with
  | Ok s => s
  | Raise _ => "News unavailable."
  end.

End DataExtractor.

(** ** Quality assessment *)

Module CRAGAssessor.

Record t : Type := mk { llm : ChatOpenAI }.

Definition DQ : string := String (ascii_of_nat 34) EmptyString.

Definition ASSESSMENT_PROMPT (question documents : string)
  : list (string * string) :=
  [ ("system",
     "You are a document quality assessor for financial Q&A." ++ LFLF
     ++ "Evaluate if retrieved documents contain sufficient information to answer the question."
     ++ LFLF
     ++ "Return ONLY one word:" ++ LF
     ++ "- " ++ DQ ++ "correct" ++ DQ
     ++ " = Documents fully answer the question" ++ LF
     ++ "- " ++ DQ ++ "ambiguous" ++ DQ
     ++ " = Partial information, web search would help" ++ LF
     ++ "- " ++ DQ ++ "incorrect" ++ DQ
     ++ " = Documents don't answer, web search required" ++ LFLF
     ++ "Question: " ++ question ++ LF
     ++ "Documents: " ++ documents);
    ("human", "Assessment:") ].

(** [self.chain.invoke({"question": ..., "documents": ...})]. *)
Definition chain_invoke (self : t) (question documents : string) : M string :=
  let messages := ASSESSMENT_PROMPT question documents in
  call (LLMInvoke messages) (llm self messages).

(** The lines under [# Parse result]. *)
Definition parse_result (result : string) : string :=
  let result_lower := str_strip (str_lower result) in
  if str_in "correct" result_lower then "correct"
  else if str_in "incorrect" result_lower then "incorrect"
  else "ambiguous".

Definition docs_text (documents : list Document) : string :=
  str_join LFLF
    (map (fun d => str_take 500 (page_content d)) (firstn 3 documents)).

Definition assess (self : t) (question : string) (documents : list Document)
  : M string :=
  result <- chain_invoke self question (docs_text documents) ;;
  ret (parse_result result).

End CRAGAssessor.

(** ** Workflow nodes *)

Module CRAGWorkflow.

Record t : Type := mk {
  vectorstore : VectorStore;
  llm : ChatOpenAI;
  assessor : CRAGAssessor.t;
  tavily_client : option TavilyClient
}.

Definition GENERATION_PROMPT (question context : string)
  : list (string * string) :=
  [ ("system", "You are a financial analyst. Answer based on the context.");
    ("human", "Question: " ++ question ++ LFLF ++ "Context: " ++ context) ].

(** Node 1. *)
Definition retrieve (self : t) (state : CRAGState) : M CRAGState :=
  docs <- call (SimilaritySearch (question state) 5)
               (vectorstore self (question state) 5) ;;
  ret (set_documents state docs).

(** Node 2. *)
Definition assess (self : t) (state : CRAGState) : M CRAGState :=
  quality <- CRAGAssessor.assess (assessor self) (question state)
                                 (documents state) ;;
  ret (set_quality state quality).

(** [f"{r.get('content', '')}"]. *)
Definition item_text (r : TavilyItem) : string :=
  match item_content r with Some c => c | None => "" end.

(** [response.get('results', [])]. *)
Definition results_of (response : TavilyResponse) : list TavilyItem :=
  match response_results response with Some l => l | None => [] end.

(** Node 3. *)
Definition web_search (self : t) (state : CRAGState) : M CRAGState :=
  match tavily_client self with
  | None => ret (set_web_results state "[Web search disabled]")
  | Some client =>
      try_except
        (let query := ticker state ++ " stock " ++ question state in
         response <- call (TavilySearch query 3) (client query 3) ;;
         ret (set_web_results state
                (str_join LFLF (map item_text (results_of response)))))
        (fun e =>
           ret (set_web_results state ("[Error: " ++ exn_str e ++ "]")))
  end.

(** The text bound to [context] in [generate]. *)
Definition generate_context (state : CRAGState) : string :=
  if quality state =? "correct" then
    str_join LFLF (map page_content (documents state))
  else
    let local :=
      str_join LFLF
        (map (fun doc => str_take 800 (page_content doc))
             (firstn 2 (documents state))) in
    "Local:" ++ LF ++ local ++ LFLF ++ "Web:" ++ LF ++ web_results state.

(** Node 4. *)
Definition generate (self : t) (state : CRAGState) : M CRAGState :=
  let context := generate_context state in
  let messages := GENERATION_PROMPT (question state) context in
  answer <- call (LLMInvoke messages) (llm self messages) ;;
  ret (set_generation state answer).

(** Routing after the assessment. *)
Definition route (self : t) (state : CRAGState) : string :=
  if quality state =? "correct" then "generate" else "web_search".

End CRAGWorkflow.

(** ** The graph executor (LangGraph's [StateGraph])

    The part of [langgraph.graph] the program uses: nodes, one entry
    point, plain and conditional edges, [compile] and [invoke].  The
    executor runs one node after another, follows the conditional edge of
    a node when it has one and its plain edge otherwise, stops at [END],
    and gives up after [recursion_limit] nodes. *)

Module StateGraph.

Definition END : string := "__end__".

Definition Node : Type := CRAGState -> M CRAGState.

Record t : Type := mk {
  nodes : list (string * Node);
  entry_point : option string;
  edges : list (string * string);
  branches : list (string * ((CRAGState -> string) * list (string * string)))
}.

Definition empty : t := mk [] None [] [].

Definition add_node (g : t) (name : string) (action : Node) : t :=
  mk (nodes g ++ [(name, action)])%list (entry_point g) (edges g) (branches g).

Definition set_entry_point (g : t) (name : string) : t :=
  mk (nodes g) (Some name) (edges g) (branches g).

Definition add_edge (g : t) (start_key end_key : string) : t :=
  mk (nodes g) (entry_point g) (edges g ++ [(start_key, end_key)])%list
     (branches g).

Definition add_conditional_edges (g : t) (source : string)
    (path : CRAGState -> string) (path_map : list (string * string)) : t :=
  mk (nodes g) (entry_point g) (edges g)
     (branches g ++ [(source, (path, path_map))])%list.

Fixpoint lookup {A} (key : string) (l : list (string * A)) : option A :=
  match l with
  | [] => None
  | (k, v) :: l' => if k =? key then Some v else lookup key l'
  end.

Definition is_node (g : t) (name : string) : bool :=
  match lookup name (nodes g) with Some _ => true | None => false end.

Definition is_target (g : t) (name : string) : bool :=
  (name =? END) || is_node g name.

(** The validation of [compile]: an entry point that is a node, and edges
    between known nodes. *)
Definition valid (g : t) : bool :=
  match entry_point g with
  | Some e => is_node g e
  | None => false
  end
  && forallb (fun e => is_node g (fst e) && is_target g (snd e)) (edges g)
  && forallb (fun b => is_node g (fst b)
                       && forallb (fun m => is_target g (snd m))
                                  (snd (snd b)))
             (branches g).

Definition compile (g : t) : result t :=
  if valid g then Ok g
  else Raise (PyExc "ValueError" "invalid graph").

(** Where the run goes after node [cur] has produced [state]. *)
Definition next (g : t) (cur : string) (state : CRAGState) : result string :=
  match lookup cur (branches g) with
  | Some (path, path_map) =>
      match lookup (path state) path_map with
      | Some target => Ok target
      | None => Raise (PyExc "KeyError" (path state))
      end
  | None =>
      match lookup cur (edges g) with
      | Some target => Ok target
      | None => Ok END
      end
  end.

Definition recursion_limit : nat := 25.

Fixpoint run (g : t) (limit : nat) (cur : string) (state : CRAGState)
  : M CRAGState :=
  if cur =? END then ret state
  else
    match limit with
    | O => raise (PyExc "GraphRecursionError" "Recursion limit reached")
    | S limit' =>
        match lookup cur (nodes g) with
        | None => raise (PyExc "KeyError" cur)
        | Some action =>
            emit (NodeEnter cur) ;;;
            state' <- action state ;;
            emit (NodeExit cur) ;;;
            match next g cur state' with
            | Raise e => raise e
            | Ok target => run g limit' target state'
            end
        end
    end.

Definition invoke (app : t) (input : CRAGState) : M CRAGState :=
  match entry_point app with
  | Some e => run app recursion_limit e input
  | None => raise (PyExc "ValueError" "no entry point")
  end.

End StateGraph.

(** ** The main system *)

Module FinancialCRAG.

Record t : Type := mk {
  extractor : DataExtractor.t;
  llm : ChatOpenAI;
  assessor : CRAGAssessor.t;
  tavily : option TavilyClient;
  vectorstore : option VectorStore;
  app : option StateGraph.t
}.

(** [__init__]: [tavily_key] is the value of [TAVILY_API_KEY] ([None]
    when unset), [TavilyClient_new] builds a client from a key. *)
Definition init (extractor : DataExtractor.t) (llm : ChatOpenAI)
    (TavilyClient_new : string -> TavilyClient) (tavily_key : option string)
  : t :=
  mk extractor llm (CRAGAssessor.mk llm)
     match tavily_key with
     | Some key => if str_bool key then Some (TavilyClient_new key) else None
     | None => None
     end
     None None.

Definition set_vectorstore (self : t) (v : option VectorStore) : t :=
  mk (extractor self) (llm self) (assessor self) (tavily self) v (app self).

Definition set_app (self : t) (v : option StateGraph.t) : t :=
  mk (extractor self) (llm self) (assessor self) (tavily self)
     (vectorstore self) v.

(** The graph built in [setup] under [# Add nodes] and [# Define flow]. *)
Definition crag_graph (workflow : CRAGWorkflow.t) : StateGraph.t :=
  let graph := StateGraph.empty in
  let graph := StateGraph.add_node graph "retrieve"
                 (CRAGWorkflow.retrieve workflow) in
  let graph := StateGraph.add_node graph "assess"
                 (CRAGWorkflow.assess workflow) in
  let graph := StateGraph.add_node graph "web_search"
                 (CRAGWorkflow.web_search workflow) in
  let graph := StateGraph.add_node graph "generate"
                 (CRAGWorkflow.generate workflow) in
  let graph := StateGraph.set_entry_point graph "retrieve" in
  let graph := StateGraph.add_edge graph "retrieve" "assess" in
  let graph := StateGraph.add_conditional_edges graph "assess"
                 (CRAGWorkflow.route workflow)
                 [("web_search", "web_search"); ("generate", "generate")] in
  let graph := StateGraph.add_edge graph "web_search" "generate" in
  let graph := StateGraph.add_edge graph "generate" StateGraph.END in
  graph.

(** The two documents indexed by [setup]. *)
Definition setup_documents (ticker stock_data news_data : string)
  : list Document :=
  [ mkDocument stock_data [("source", "yfinance"); ("ticker", ticker)];
    mkDocument news_data [("source", "news"); ("ticker", ticker)] ].

(** [setup]: the object after the call and whether the call returned or
    raised.  [Chroma_from_documents] is the indexing service. *)
Definition setup (self : t)
    (Chroma_from_documents : list Document -> result VectorStore)
    (ticker : string) : t * result unit :=
  match DataExtractor.get_stock_data (extractor self) ticker with
  | Raise e => (self, Raise e)
  | Ok stock_data =>
      let news_data := DataExtractor.get_news (extractor self) ticker in
      let documents := setup_documents ticker stock_data news_data in
      match Chroma_from_documents documents with
      | Raise e => (self, Raise e)
      | Ok store =>
          let self := set_vectorstore self (Some store) in
          let workflow :=
            CRAGWorkflow.mk store (llm self) (assessor self) (tavily self) in
          match StateGraph.compile (crag_graph workflow) with
          | Raise e => (self, Raise e)
          | Ok compiled => (set_app self (Some compiled), Ok tt)
          end
      end
  end.

(** The dictionary returned by [query]. *)
Record QueryResult : Type := mkResult {
  r_question : string;
  r_answer : string;
  r_quality : string;
  r_used_web : bool
}.

Definition initial_state (question ticker : string) : CRAGState :=
  mkState question ticker [] "" "" "unknown".

Definition query (self : t) (question ticker : string) : M QueryResult :=
  match app self with
  | None => raise (PyExc "RuntimeError" "Call setup() first")
  | Some app =>
      result <- StateGraph.invoke app (initial_state question ticker) ;;
      ret (mkResult question (generation result) (quality result)
                    (str_bool (web_results result)))
  end.

End FinancialCRAG.

(** ** The command shell ([financial_crag_cli.py]) *)

Module CRAGCLI.

(** The process environment and what the constructor [FinancialCRAG()]
    binds to it.  [str_upper] is [str.upper]: its table leaves the code
    points of the model (it sends U+00FF to U+0178), so the shell takes it
    from here. *)
Record Env : Type := mkEnv {
  OPENAI_API_KEY : option string;
  NEWSAPI_API_KEY : option string;
  TAVILY_API_KEY : option string;
  extractor : DataExtractor.t;
  llm : ChatOpenAI;
  TavilyClient_new : string -> TavilyClient;
  Chroma_from_documents : list Document -> result VectorStore;
  str_upper : string -> string
}.

Inductive Emoji : Type := CheckMark | WarningSign | CrossMark.

(** What [console.print] shows, without the markup around the data. *)
Inductive Output : Type :=
| Banner
| HelpPanel
| ProvideTicker
| Ready (ticker : string)
| Error (message : string)
| RunSetupFirst
| ProvideQuestion
| Quality (emoji : Emoji) (quality_upper : string)
| Web (used_web : bool)
| Answer (text : string)
| BlankLine
| Missing (keys : list string)
| KeysOK
| Bye
| UnknownCommand.

Record t : Type := mk {
  system : option FinancialCRAG.t;
  ticker : option string
}.

(** [CRAGCLI()]. *)
Definition init : t := mk None None.

(** [FinancialCRAG()]. *)
Definition FinancialCRAG_new (env : Env) : FinancialCRAG.t :=
  FinancialCRAG.init (extractor env) (llm env) (TavilyClient_new env)
    (TAVILY_API_KEY env).

(** [setup]: the shell after the call, what was printed, and the value
    returned. *)
Definition setup (env : Env) (self : t) (ticker : string)
  : t * list Output * bool :=
  let ticker := str_strip (str_upper env ticker) in
  if negb (str_bool ticker) then (self, [ProvideTicker], false)
  else
    let system :=
      match system self with
      | Some s => s
      | None => FinancialCRAG_new env
      end in
    match FinancialCRAG.setup system (Chroma_from_documents env) ticker with
    | (system, Ok _) => (mk (Some system) (Some ticker), [Ready ticker], true)
    | (system, Raise e) =>
        (mk (Some system) (CRAGCLI.ticker self), [Error (exn_str e)], false)
    end.

Definition quality_emoji : list (string * Emoji) :=
  [("correct", CheckMark); ("ambiguous", WarningSign);
   ("incorrect", CrossMark)].

(** The lines printed under [# Display]; a quality that is no key of
    [quality_emoji] is a [KeyError], whose text is the key in quotes. *)
Definition display (env : Env) (shown : FinancialCRAG.QueryResult)
  : result (list Output) :=
  match StateGraph.lookup (FinancialCRAG.r_quality shown) quality_emoji with
  | Some emoji =>
      Ok [Quality emoji (str_upper env (FinancialCRAG.r_quality shown));
          Web (FinancialCRAG.r_used_web shown);
          Answer (FinancialCRAG.r_answer shown);
          BlankLine]
  | None =>
      Raise (PyExc "KeyError" ("'" ++ FinancialCRAG.r_quality shown ++ "'"))
  end.

(** [query]: what was printed, and the calls that reached the services. *)
Definition query (env : Env) (self : t) (question : string)
  : list Output * list Event :=
  match system self, ticker self with
  | Some system, Some ticker =>
      if negb (str_bool ticker) then ([RunSetupFirst], [])
      else if negb (str_bool question) then ([ProvideQuestion], [])
      else
        match FinancialCRAG.query system question ticker with
        | (calls, Ok answered) =>
            match display env answered with
            | Ok shown => (shown, calls)
            | Raise e => ([Error (exn_str e)], calls)
            end
        | (calls, Raise e) => ([Error (exn_str e)], calls)
        end
  | _, _ => ([RunSetupFirst], [])
  end.

(** The first white-space separated word of a line. *)
Fixpoint first_word (s : string) : string :=
  match s with
  | EmptyString => EmptyString
  | String c s' => if is_space c then EmptyString
                   else String c (first_word s')
  end.

(** What follows the first word and the white space after it. *)
Fixpoint after_first_word (s : string) : string :=
  match s with
  | EmptyString => EmptyString
  | String c s' => if is_space c then str_lstrip s'
                   else after_first_word s'
  end.

(** [s.split(maxsplit=1)]. *)
Definition split_maxsplit_1 (s : string) : list string :=
  let s := str_lstrip s in
  if negb (str_bool s) then []
  else if negb (str_bool (after_first_word s)) then [first_word s]
  else [first_word s; after_first_word s].

(** One turn of the loop of [run], on the line typed at the prompt and
    the answer given to [Exit?] should the line ask for it: the shell
    after the turn, what was printed, the calls that reached the services
    during a query, and whether the loop ends. *)
Definition turn (env : Env) (self : t) (line : string) (confirm : bool)
  : t * list Output * list Event * bool :=
  let user_input := str_strip line in
  if negb (str_bool user_input) then (self, [], [], false)
  else
    match split_maxsplit_1 user_input with
    | [] => (self, [Error "list index out of range"], [], false)
    | word :: rest =>
        let cmd := str_lower word in
        let args := match rest with a :: _ => a | [] => "" end in
        if (cmd =? "exit") || (cmd =? "quit") then
          if confirm then (self, [Bye], [], true) else (self, [], [], false)
        else if cmd =? "help" then (self, [HelpPanel], [], false)
        else if cmd =? "setup" then
          let '(self, shown, _) := setup env self args in
          (self, shown, [], false)
        else if cmd =? "query" then
          let (shown, calls) := query env self args in
          (self, shown, calls, false)
        else
          match ticker self with
          | Some tk =>
              if str_bool tk then
                let (shown, calls) := query env self user_input in
                (self, shown, calls, false)
              else (self, [UnknownCommand], [], false)
          | None => (self, [UnknownCommand], [], false)
          end
    end.

(** The loop of [run] on the lines typed, until [exit] is confirmed or
    the lines run out. *)
Fixpoint loop (env : Env) (self : t) (typed : list (string * bool))
  : t * list Output * list Event :=
  match typed with
  | [] => (self, [], [])
  | (line, confirm) :: typed' =>
      let '(self, shown, calls, stop) := turn env self line confirm in
      if stop then (self, shown, calls)
      else
        let '(self, shown', calls') := loop env self typed' in
        (self, (shown ++ shown')%list, (calls ++ calls')%list)
  end.

Definition key_set (value : option string) : bool :=
  match value with
  | Some v => str_bool v
  | None => false
  end.

(** The names of the required keys that [os.getenv] does not find. *)
Definition missing_keys (env : Env) : list string :=
  ((if key_set (OPENAI_API_KEY env) then [] else ["OPENAI_API_KEY"])
   ++ (if key_set (NEWSAPI_API_KEY env) then [] else ["NEWSAPI_API_KEY"])
   ++ (if key_set (TAVILY_API_KEY env) then [] else ["TAVILY_API_KEY"]))%list.

(** [run], from a new shell. *)
Definition run (env : Env) (typed : list (string * bool))
  : t * list Output * list Event :=
  match missing_keys env with
  | _ :: _ => (init, [Banner; Missing (missing_keys env)], [])
  | [] =>
      let '(self, shown, calls) := loop env init typed in
      (self, (Banner :: KeysOK :: shown)%list, calls)
  end.

End CRAGCLI.

(** ** Vocabulary of the properties *)

(** [needle] occurs in [hay]. *)
Definition Substring (needle hay : string) : Prop :=
  exists before after, hay = before ++ needle ++ after.

(** [p] is what [s[:n]] keeps of [s]. *)
Definition Truncation (n : nat) (s p : string) : Prop :=
  (exists dropped, s = p ++ dropped)
  /\ String.length p = Nat.min n (String.length s).

Definition is_enter (name : string) (ev : Event) : bool :=
  match ev with
  | NodeEnter n => n =? name
  | _ => false
  end.

Definition is_tavily (ev : Event) : bool :=
  match ev with
  | TavilySearch _ _ => true
  | _ => false
  end.

Definition count (p : Event -> bool) (t : list Event) : nat :=
  List.length (filter p t).

(** The runs of [crag_graph], node after node. *)
Definition pipeline (w : CRAGWorkflow.t) (state : CRAGState) : M CRAGState :=
  emit (NodeEnter "retrieve") ;;;
  s1 <- CRAGWorkflow.retrieve w state ;;
  emit (NodeExit "retrieve") ;;;
  emit (NodeEnter "assess") ;;;
  s2 <- CRAGWorkflow.assess w s1 ;;
  emit (NodeExit "assess") ;;;
  if quality s2 =? "correct" then
    emit (NodeEnter "generate") ;;;
    s3 <- CRAGWorkflow.generate w s2 ;;
    emit (NodeExit "generate") ;;;
    ret s3
  else
    emit (NodeEnter "web_search") ;;;
    s3 <- CRAGWorkflow.web_search w s2 ;;
    emit (NodeExit "web_search") ;;;
    emit (NodeEnter "generate") ;;;
    s4 <- CRAGWorkflow.generate w s3 ;;
    emit (NodeExit "generate") ;;;
    ret s4.

(** The messages [generate] sends to the chat model. *)
Definition generate_messages (state : CRAGState) : list (string * string) :=
  CRAGWorkflow.GENERATION_PROMPT (question state)
    (CRAGWorkflow.generate_context state).

(** What is observed up to the end of the assess node, from the state
    [s0] given to retrieve and the state [s1] given to assess. *)
Definition trace_to_assess (s0 s1 : CRAGState) : list Event :=
  [ NodeEnter "retrieve"; SimilaritySearch (question s0) 5;
    NodeExit "retrieve"; NodeEnter "assess";
    LLMInvoke (CRAGAssessor.ASSESSMENT_PROMPT (question s1)
                 (CRAGAssessor.docs_text (documents s1)));
    NodeExit "assess" ].

(** The generate node as the executor runs it. *)
Definition finish (w : CRAGWorkflow.t) (state : CRAGState) : M CRAGState :=
  emit (NodeEnter "generate") ;;;
  s <- CRAGWorkflow.generate w state ;;
  emit (NodeExit "generate") ;;;
  ret s.

Definition is_llm (ev : Event) : bool :=
  match ev with
  | LLMInvoke _ => true
  | _ => false
  end.

Definition is_search (ev : Event) : bool :=
  match ev with
  | SimilaritySearch _ _ => true
  | _ => false
  end.

Definition is_node (ev : Event) : bool :=
  match ev with
  | NodeEnter _ => true
  | _ => false
  end.

(** A text without white space. *)
Fixpoint no_space (s : string) : bool :=
  match s with
  | EmptyString => true
  | String c s' => negb (is_space c) && no_space s'
  end.

(** An article with neither a description nor a content to fall back
    on. *)
Definition lacks_body (a : Article) : bool :=
  match description a with
  | Some d => negb (str_bool d)
  | None => true
  end
  && match content a with
     | Some _ => false
     | None => true
     end.

(** The shell never holds a ticker without a session that is set up. *)
Definition cli_ready (self : CRAGCLI.t) : Prop :=
  match CRAGCLI.ticker self with
  | None => True
  | Some tk =>
      tk <> ""
      /\ exists system w,
           CRAGCLI.system self = Some system
           /\ FinancialCRAG.app system = Some (FinancialCRAG.crag_graph w)
  end.

(** ** Sample collaborators

    Stand-ins for the services, used to run the model on concrete
    inputs. *)

Definition sample_extractor : DataExtractor.t :=
  DataExtractor.mk
    (fun _ => Ok "STOCK: AAPL - Apple Inc.")
    (fun _ => Ok (Some "Apple Inc."))
    (fun _ =>
       Ok (Some [mkArticle "2024-05-02T20:30:00Z" "Apple reports earnings"
                           (Some "Revenue rose.") None])).

(** A chat model that answers the assessment prompt with [assessment] and
    every other prompt with a fixed sentence. *)
Definition sample_llm (assessment : string) : ChatOpenAI :=
  fun messages =>
    match messages with
    | [_; (_, human)] =>
        if human =? "Assessment:" then Ok assessment
        else Ok "Apple trades at 30 times earnings."
    | _ => Raise (PyExc "ValueError" "unexpected prompt")
    end.

Definition sample_Chroma : list Document -> result VectorStore :=
  fun docs => Ok (fun _ k => Ok (firstn k docs)).

Definition sample_documents : list Document :=
  FinancialCRAG.setup_documents "AAPL" "STOCK: AAPL - Apple Inc."
    (DataExtractor.get_news sample_extractor "AAPL").

Definition sample_workflow (assessment : string)
    (tavily : option TavilyClient) : CRAGWorkflow.t :=
  CRAGWorkflow.mk (fun _ k => Ok (firstn k sample_documents))
    (sample_llm assessment) (CRAGAssessor.mk (sample_llm assessment)) tavily.

Definition fresh_session (assessment : string)
    (tavily : option TavilyClient) : FinancialCRAG.t :=
  FinancialCRAG.mk sample_extractor (sample_llm assessment)
    (CRAGAssessor.mk (sample_llm assessment)) tavily None None.

(** The session after [setup("AAPL")]. *)
Definition sample_session (assessment : string)
    (tavily : option TavilyClient) : FinancialCRAG.t :=
  fst (FinancialCRAG.setup (fresh_session assessment tavily)
         sample_Chroma "AAPL").

Definition sample_tavily : TavilyClient :=
  fun _ _ => Ok (mkResponse (Some [mkItem (Some "Apple beat estimates.")])).

(** A configured client that finds nothing. *)
Definition silent_tavily : TavilyClient :=
  fun _ _ => Ok (mkResponse (Some [])).

Definition failing_tavily : TavilyClient :=
  fun _ _ => Raise (PyExc "ConnectionError" "timed out").

(** A session whose vector store is out of reach. *)
Definition failing_store_workflow : CRAGWorkflow.t :=
  CRAGWorkflow.mk (fun _ _ => Raise (PyExc "ConnectionError" "store down"))
    (sample_llm "correct") (CRAGAssessor.mk (sample_llm "correct")) None.

Definition failing_store_session : FinancialCRAG.t :=
  FinancialCRAG.mk sample_extractor (sample_llm "correct")
    (CRAGAssessor.mk (sample_llm "correct")) None
    (Some (fun _ _ => Raise (PyExc "ConnectionError" "store down")))
    (Some (FinancialCRAG.crag_graph failing_store_workflow)).

(** A chat model that gives the same text to every prompt, and a
    session built on it. *)
Definition steady_llm (text : string) : ChatOpenAI := fun _ => Ok text.

Definition steady_workflow (text : string) : CRAGWorkflow.t :=
  CRAGWorkflow.mk (fun _ k => Ok (firstn k sample_documents))
    (steady_llm text) (CRAGAssessor.mk (steady_llm text)) (Some failing_tavily).

Definition steady_session (text : string) : FinancialCRAG.t :=
  FinancialCRAG.mk sample_extractor (steady_llm text)
    (CRAGAssessor.mk (steady_llm text)) (Some failing_tavily)
    (Some (fun _ k => Ok (firstn k sample_documents)))
    (Some (FinancialCRAG.crag_graph (steady_workflow text))).

(** An extractor whose second article has lost its text. *)
Definition bad_article_extractor : DataExtractor.t :=
  DataExtractor.mk
    (fun _ => Ok "STOCK: AAPL - Apple Inc.")
    (fun _ => Ok (Some "Apple Inc."))
    (fun _ =>
       Ok (Some [mkArticle "2024-05-02T20:30:00Z" "Apple reports earnings"
                           (Some "Revenue rose.") None;
                 mkArticle "2024-05-03T08:00:00Z" "Removed" (Some "") None])).

(** An extractor whose news service is down. *)
Definition newsless_extractor : DataExtractor.t :=
  DataExtractor.mk
    (fun _ => Ok "STOCK: AAPL - Apple Inc.")
    (fun _ => Ok (Some "Apple Inc."))
    (fun _ => Raise (PyExc "NewsAPIException" "rateLimited")).

(** An extractor whose market data service is down. *)
Definition stockless_extractor : DataExtractor.t :=
  DataExtractor.mk
    (fun _ => Raise (PyExc "KeyError" "Close"))
    (fun _ => Ok (Some "Apple Inc."))
    (fun _ => Ok (Some [])).

Definition failing_Chroma : list Document -> result VectorStore :=
  fun _ => Raise (PyExc "AuthenticationError" "invalid api key").

(** The session of [sample_session] with another extractor plugged in. *)
Definition with_extractor (extractor : DataExtractor.t)
    (self : FinancialCRAG.t) : FinancialCRAG.t :=
  FinancialCRAG.mk extractor (FinancialCRAG.llm self)
    (FinancialCRAG.assessor self) (FinancialCRAG.tavily self)
    (FinancialCRAG.vectorstore self) (FinancialCRAG.app self).

(** [str.upper] on ASCII text, which is all the sample tickers need. *)
Definition ascii_upper_char (c : ascii) : ascii :=
  let n := N_of_ascii c in
  if ((97 <=? n) && (n <=? 122))%N then ascii_of_N (n - 32) else c.

Fixpoint ascii_upper (s : string) : string :=
  match s with
  | EmptyString => EmptyString
  | String c s' => String (ascii_upper_char c) (ascii_upper s')
  end.

(** An environment with the three keys set. *)
Definition sample_env (assessment : string) : CRAGCLI.Env :=
  CRAGCLI.mkEnv (Some "sk-1") (Some "news-1") (Some "tvly-1")
    sample_extractor (sample_llm assessment) (fun _ => sample_tavily)
    sample_Chroma ascii_upper.

(** The shell after [setup aapl] in [sample_env]. *)
Definition sample_shell (assessment : string) : CRAGCLI.t :=
  fst (fst (CRAGCLI.setup (sample_env assessment) CRAGCLI.init " aapl ")).

(** An environment with the three keys set and the indexing service
    down. *)
Definition unindexed_env (assessment : string) : CRAGCLI.Env :=
  CRAGCLI.mkEnv (Some "sk-1") (Some "news-1") (Some "tvly-1")
    sample_extractor (sample_llm assessment) (fun _ => sample_tavily)
    failing_Chroma ascii_upper.

(** The characters of all documents together. *)
Definition contents_length (docs : list Document) : nat :=
  fold_right (fun d n => String.length (page_content d) + n) 0 docs.

(** ** Facts about strings *)

Lemma append_nil_r (s : string) : s ++ "" = s.
Proof. induction s as [|c s IH]; simpl; [reflexivity | now rewrite IH]. Qed.

Lemma append_assoc (a b c : string) : (a ++ b) ++ c = a ++ (b ++ c).
Proof. induction a as [|x a IH]; simpl; [reflexivity | now rewrite IH]. Qed.

Lemma append_length (a b : string) :
  String.length (a ++ b) = String.length a + String.length b.
Proof. induction a as [|x a IH]; simpl; [reflexivity | now rewrite IH]. Qed.

Lemma append_empty (a b : string) : a ++ b = "" -> a = "" /\ b = "".
Proof. destruct a; simpl; intros H; [auto | discriminate]. Qed.

Lemma starts_with_iff (p s : string) :
  starts_with p s = true <-> exists rest, s = p ++ rest.
Proof.
  revert s; induction p as [|a p IH]; intros s; simpl.
  - split; [intros _; now exists s | reflexivity].
  - destruct s as [|b s].
    + split; [discriminate | intros [rest H]; discriminate].
    + rewrite andb_true_iff, Ascii.eqb_eq, IH. split.
      * intros [-> [rest ->]]. now exists rest.
      * intros [rest H]. injection H as -> ->. split; [reflexivity | now exists rest].
Qed.

Lemma str_in_iff (needle hay : string) :
  str_in needle hay = true <-> Substring needle hay.
Proof.
  unfold Substring. induction hay as [|c hay IH].
  - simpl. rewrite orb_false_r, starts_with_iff. split.
    + intros [rest H]. now exists "", rest.
    + intros [before [after H]]. symmetry in H.
      apply append_empty in H as [-> H]. simpl in H. now exists after.
  - cbn [str_in]. rewrite orb_true_iff, starts_with_iff, IH. split.
    + intros [[rest H] | [before [after H]]].
      * now exists "", rest.
      * exists (String c before), after. simpl. now rewrite H.
    + intros [[|x before] [after H]].
      * left. now exists after.
      * right. simpl in H. injection H as _ H. now exists before, after.
Qed.

Lemma str_take_truncation (n : nat) (s : string) :
  Truncation n s (str_take n s).
Proof.
  revert s; induction n as [|n IH]; intros s.
  - split; [now exists s | reflexivity].
  - destruct s as [|c s]; simpl.
    + split; [now exists "" | reflexivity].
    + destruct (IH s) as [[dropped Hd] Hl]. split.
      * exists dropped. simpl. now rewrite <- Hd.
      * simpl. now rewrite Hl.
Qed.

Lemma str_take_all (n : nat) (s : string) :
  String.length s <= n -> str_take n s = s.
Proof.
  revert s; induction n as [|n IH]; intros [|c s]; simpl; intros H;
    try reflexivity; try lia.
  now rewrite IH by lia.
Qed.

Lemma str_join_empty_iff (sep : string) (l : list string) :
  sep <> "" -> (str_join sep l = "" <-> l = [] \/ l = [""]).
Proof.
  intros Hsep. destruct l as [|x [|y l]]; simpl.
  - split; auto.
  - split; [intros ->; auto | intros [H | H]; [discriminate | now injection H]].
  - split.
    + intros H. apply append_empty in H as [_ H].
      apply append_empty in H as [H _]. contradiction.
    + intros [H | H]; discriminate.
Qed.

Lemma str_bool_true_iff (s : string) : str_bool s = true <-> s <> "".
Proof. destruct s; simpl; split; congruence. Qed.

Lemma incorrect_contains_correct (s : string) :
  Substring "incorrect" s -> Substring "correct" s.
Proof.
  intros [before [after H]]. exists (before ++ "in"), after.
  rewrite H, append_assoc. reflexivity.
Qed.

(** The string functions on sample inputs. *)

Example str_lower_sample : str_lower "This is INCORRECT" = "this is incorrect".
Proof. reflexivity. Qed.

Example str_strip_sample :
  str_strip (" " ++ LF ++ "not  sure " ++ LF) = "not  sure".
Proof. reflexivity. Qed.

Example str_in_sample :
  str_in "correct" "incorrect" = true /\ str_in "incorrect" "correct" = false.
Proof. split; reflexivity. Qed.

Example str_join_sample : str_join ", " ["a"; "b"; "c"] = "a, b, c".
Proof. reflexivity. Qed.

Example get_news_sample :
  DataExtractor.get_news sample_extractor "AAPL"
  = "[2024-05-02] Apple reports earnings" ++ LF ++ "Revenue rose."
  /\ DataExtractor.get_news stockless_extractor "AAPL" = "No recent news."
  /\ DataExtractor.get_news newsless_extractor "AAPL" = "News unavailable.".
Proof. repeat split. Qed.

(** Without a Tavily key the system starts with no client, and with no
    store and no graph. *)
Lemma init_without_key (extractor : DataExtractor.t) (llm : ChatOpenAI)
    (TavilyClient_new : string -> TavilyClient) :
  FinancialCRAG.init extractor llm TavilyClient_new None
  = FinancialCRAG.mk extractor llm (CRAGAssessor.mk llm) None None None
  /\ FinancialCRAG.init extractor llm TavilyClient_new (Some "")
     = FinancialCRAG.mk extractor llm (CRAGAssessor.mk llm) None None None.
Proof. split; reflexivity. Qed.

(** ** The graph of [setup] *)

Lemma crag_graph_valid (w : CRAGWorkflow.t) :
  StateGraph.compile (FinancialCRAG.crag_graph w)
  = Ok (FinancialCRAG.crag_graph w).
Proof. reflexivity. Qed.

Lemma bind_ext {A B} (m : M A) (f g : A -> M B) :
  (forall a, f a = g a) -> bind m f = bind m g.
Proof. intros H. destruct m as [t [a|e]]; simpl; [now rewrite H | reflexivity]. Qed.

Lemma run_assess (w : CRAGWorkflow.t) (n : nat) (s1 : CRAGState) :
  StateGraph.run (FinancialCRAG.crag_graph w) (S (S (S (S n)))) "assess" s1
  = (emit (NodeEnter "assess") ;;;
     s2 <- CRAGWorkflow.assess w s1 ;;
     emit (NodeExit "assess") ;;;
     if quality s2 =? "correct" then
       emit (NodeEnter "generate") ;;;
       s3 <- CRAGWorkflow.generate w s2 ;;
       emit (NodeExit "generate") ;;;
       ret s3
     else
       emit (NodeEnter "web_search") ;;;
       s3 <- CRAGWorkflow.web_search w s2 ;;
       emit (NodeExit "web_search") ;;;
       emit (NodeEnter "generate") ;;;
       s4 <- CRAGWorkflow.generate w s3 ;;
       emit (NodeExit "generate") ;;;
       ret s4).
Proof.
  change (StateGraph.run (FinancialCRAG.crag_graph w) (S (S (S (S n)))) "assess" s1)
    with (emit (NodeEnter "assess") ;;;
          s2 <- CRAGWorkflow.assess w s1 ;;
          emit (NodeExit "assess") ;;;
          match StateGraph.next (FinancialCRAG.crag_graph w) "assess" s2 with
          | Raise e => raise e
          | Ok target =>
              StateGraph.run (FinancialCRAG.crag_graph w) (S (S (S n))) target s2
          end).
  apply bind_ext; intros _. apply bind_ext; intros s2.
  apply bind_ext; intros _.
  change (StateGraph.next (FinancialCRAG.crag_graph w) "assess" s2)
    with (match StateGraph.lookup (CRAGWorkflow.route w s2)
                  [("web_search", "web_search"); ("generate", "generate")]
          with
          | Some target => Ok target
          | None => Raise (PyExc "KeyError" (CRAGWorkflow.route w s2))
          end).
  unfold CRAGWorkflow.route.
  destruct (quality s2 =? "correct"); reflexivity.
Qed.

(** A run of the compiled graph visits the nodes in the order of
    [pipeline]; four nodes at most, well within the recursion limit. *)
Lemma invoke_crag_graph (w : CRAGWorkflow.t) (state : CRAGState) :
  StateGraph.invoke (FinancialCRAG.crag_graph w) state = pipeline w state.
Proof.
  change (StateGraph.invoke (FinancialCRAG.crag_graph w) state)
    with (emit (NodeEnter "retrieve") ;;;
          s1 <- CRAGWorkflow.retrieve w state ;;
          emit (NodeExit "retrieve") ;;;
          StateGraph.run (FinancialCRAG.crag_graph w) 24 "assess" s1).
  unfold pipeline.
  apply bind_ext; intros _. apply bind_ext; intros s1.
  apply bind_ext; intros _. apply (run_assess w 20).
Qed.

(** ** The nodes, one by one *)

Lemma retrieve_shape (w : CRAGWorkflow.t) (s : CRAGState) :
  CRAGWorkflow.retrieve w s
  = ([SimilaritySearch (question s) 5],
     match CRAGWorkflow.vectorstore w (question s) 5 with
     | Ok docs => Ok (set_documents s docs)
     | Raise e => Raise e
     end).
Proof.
  unfold CRAGWorkflow.retrieve, call, bind, ret.
  destruct (CRAGWorkflow.vectorstore w (question s) 5); reflexivity.
Qed.

Lemma assessor_shape (a : CRAGAssessor.t) (q : string) (docs : list Document) :
  CRAGAssessor.assess a q docs
  = ([LLMInvoke (CRAGAssessor.ASSESSMENT_PROMPT q (CRAGAssessor.docs_text docs))],
     match CRAGAssessor.llm a
             (CRAGAssessor.ASSESSMENT_PROMPT q (CRAGAssessor.docs_text docs))
     with
     | Ok response => Ok (CRAGAssessor.parse_result response)
     | Raise e => Raise e
     end).
Proof.
  unfold CRAGAssessor.assess, CRAGAssessor.chain_invoke, call, bind, ret.
  destruct (CRAGAssessor.llm a _); reflexivity.
Qed.

Lemma assess_shape (w : CRAGWorkflow.t) (s : CRAGState) :
  CRAGWorkflow.assess w s
  = ([LLMInvoke (CRAGAssessor.ASSESSMENT_PROMPT (question s)
                   (CRAGAssessor.docs_text (documents s)))],
     match CRAGAssessor.llm (CRAGWorkflow.assessor w)
             (CRAGAssessor.ASSESSMENT_PROMPT (question s)
                (CRAGAssessor.docs_text (documents s)))
     with
     | Ok response => Ok (set_quality s (CRAGAssessor.parse_result response))
     | Raise e => Raise e
     end).
Proof.
  unfold CRAGWorkflow.assess. rewrite assessor_shape. unfold bind, ret.
  destruct (CRAGAssessor.llm _ _); reflexivity.
Qed.

Lemma web_search_shape (w : CRAGWorkflow.t) (s : CRAGState) :
  CRAGWorkflow.web_search w s
  = match CRAGWorkflow.tavily_client w with
    | None => ([], Ok (set_web_results s "[Web search disabled]"))
    | Some client =>
        let query := ticker s ++ " stock " ++ question s in
        ([TavilySearch query 3],
         Ok (set_web_results s
               match client query 3 with
               | Ok response =>
                   str_join LFLF
                     (map CRAGWorkflow.item_text
                          (CRAGWorkflow.results_of response))
               | Raise e => "[Error: " ++ exn_str e ++ "]"
               end))
    end.
Proof.
  unfold CRAGWorkflow.web_search, try_except, call, bind, ret.
  destruct (CRAGWorkflow.tavily_client w) as [client|]; [|reflexivity].
  cbv zeta. destruct (client _ 3); reflexivity.
Qed.

Lemma generate_shape (w : CRAGWorkflow.t) (s : CRAGState) :
  CRAGWorkflow.generate w s
  = ([LLMInvoke (generate_messages s)],
     match CRAGWorkflow.llm w (generate_messages s) with
     | Ok answer => Ok (set_generation s answer)
     | Raise e => Raise e
     end).
Proof.
  unfold CRAGWorkflow.generate, generate_messages, call, bind, ret.
  cbv zeta. destruct (CRAGWorkflow.llm w _); reflexivity.
Qed.

Lemma finish_shape (w : CRAGWorkflow.t) (s : CRAGState) :
  finish w s
  = match CRAGWorkflow.llm w (generate_messages s) with
    | Ok answer =>
        ([NodeEnter "generate"; LLMInvoke (generate_messages s);
          NodeExit "generate"], Ok (set_generation s answer))
    | Raise e =>
        ([NodeEnter "generate"; LLMInvoke (generate_messages s)], Raise e)
    end.
Proof.
  unfold finish. rewrite generate_shape. unfold emit, bind, ret.
  destruct (CRAGWorkflow.llm w _); reflexivity.
Qed.

Lemma web_search_returns (w : CRAGWorkflow.t) (s : CRAGState) :
  exists s', outcome (CRAGWorkflow.web_search w s) = Ok s'.
Proof.
  rewrite web_search_shape.
  destruct (CRAGWorkflow.tavily_client w); eexists; reflexivity.
Qed.

(** ** The two paths of a run *)

Lemma pipeline_correct (w : CRAGWorkflow.t) (s0 s1 s2 : CRAGState) :
  outcome (CRAGWorkflow.retrieve w s0) = Ok s1 ->
  outcome (CRAGWorkflow.assess w s1) = Ok s2 ->
  quality s2 = "correct" ->
  pipeline w s0
  = ((trace_to_assess s0 s1 ++ trace (finish w s2))%list,
     outcome (finish w s2)).
Proof.
  intros H1 H2 Hq. unfold pipeline.
  rewrite retrieve_shape in *. unfold outcome in H1. simpl in H1.
  destruct (CRAGWorkflow.vectorstore w (question s0) 5) as [docs|e];
    [|discriminate].
  injection H1 as <-. cbn [emit bind ret app].
  rewrite assess_shape in *. unfold outcome in H2. simpl in H2.
  cbn [question documents set_documents] in *.
  destruct (CRAGAssessor.llm _ _) as [response|e]; [|discriminate].
  injection H2 as <-. cbn [emit bind ret app]. cbn [quality set_quality] in *.
  rewrite Hq. cbn [String.eqb Ascii.eqb Bool.eqb].
  rewrite finish_shape, generate_shape.
  destruct (CRAGWorkflow.llm w _); reflexivity.
Qed.

Lemma pipeline_web (w : CRAGWorkflow.t) (s0 s1 s2 s3 : CRAGState) :
  outcome (CRAGWorkflow.retrieve w s0) = Ok s1 ->
  outcome (CRAGWorkflow.assess w s1) = Ok s2 ->
  quality s2 <> "correct" ->
  outcome (CRAGWorkflow.web_search w s2) = Ok s3 ->
  pipeline w s0
  = ((trace_to_assess s0 s1
      ++ NodeEnter "web_search" :: trace (CRAGWorkflow.web_search w s2)
      ++ NodeExit "web_search" :: trace (finish w s3))%list,
     outcome (finish w s3)).
Proof.
  intros H1 H2 Hq H3. unfold pipeline.
  rewrite retrieve_shape in *. unfold outcome in H1. simpl in H1.
  destruct (CRAGWorkflow.vectorstore w (question s0) 5) as [docs|e];
    [|discriminate].
  injection H1 as <-. cbn [emit bind ret app].
  rewrite assess_shape in *. unfold outcome in H2. simpl in H2.
  cbn [question documents set_documents] in *.
  destruct (CRAGAssessor.llm _ _) as [response|e]; [|discriminate].
  injection H2 as <-. cbn [emit bind ret app]. cbn [quality set_quality] in *.
  apply String.eqb_neq in Hq. rewrite Hq.
  rewrite finish_shape. rewrite web_search_shape in *.
  destruct (CRAGWorkflow.tavily_client w) as [client|];
    unfold outcome in H3; simpl in H3; injection H3 as <-;
    cbn [emit bind ret app trace fst]; rewrite generate_shape;
    destruct (CRAGWorkflow.llm w _); reflexivity.
Qed.

Lemma query_shape (self : FinancialCRAG.t) (w : CRAGWorkflow.t)
    (q tk : string) :
  FinancialCRAG.app self = Some (FinancialCRAG.crag_graph w) ->
  FinancialCRAG.query self q tk
  = (trace (pipeline w (FinancialCRAG.initial_state q tk)),
     match outcome (pipeline w (FinancialCRAG.initial_state q tk))
     with
     | Ok final =>
         Ok (FinancialCRAG.mkResult q (generation final)
               (quality final) (str_bool (web_results final)))
     | Raise e => Raise e
     end).
Proof.
  intros Happ. unfold FinancialCRAG.query. rewrite Happ, invoke_crag_graph.
  destruct (pipeline w _) as [t [final|e]]; simpl; [|reflexivity].
  now rewrite app_nil_r.
Qed.

Lemma sample_session_app (assessment : string) (tavily : option TavilyClient) :
  FinancialCRAG.app (sample_session assessment tavily)
  = Some (FinancialCRAG.crag_graph (sample_workflow assessment tavily)).
Proof. reflexivity. Qed.

(** ** Routing *)

(** C2. When the assess node stores [correct], the run skips the web: the
    web_search node is not entered, the Tavily client is not called,
    [web_results] is still the empty string it started as, and [query]
    reports [used_web = False] (or passes on the failure of the
    generator). *)
Theorem correct_never_searches_web
    (self : FinancialCRAG.t) (w : CRAGWorkflow.t) (q tk : string)
    (s1 s2 : CRAGState) :
  FinancialCRAG.app self = Some (FinancialCRAG.crag_graph w) ->
  outcome (CRAGWorkflow.retrieve w
             (FinancialCRAG.initial_state q tk)) = Ok s1 ->
  outcome (CRAGWorkflow.assess w s1) = Ok s2 ->
  quality s2 = "correct" ->
  let run := FinancialCRAG.query self q tk in
  count (is_enter "web_search") (trace run) = 0
  /\ count is_tavily (trace run) = 0
  /\ web_results s2 = ""
  /\ outcome (StateGraph.invoke (FinancialCRAG.crag_graph w)
                (FinancialCRAG.initial_state q tk))
     = match CRAGWorkflow.llm w (generate_messages s2) with
       | Ok answer => Ok (set_generation s2 answer)
       | Raise e => Raise e
       end
  /\ outcome run
     = match CRAGWorkflow.llm w (generate_messages s2) with
       | Ok answer =>
           Ok (FinancialCRAG.mkResult q answer "correct" false)
       | Raise e => Raise e
       end.
Proof.
  intros Happ H1 H2 Hq run. subst run.
  rewrite (query_shape _ _ _ _ Happ), invoke_crag_graph.
  rewrite (pipeline_correct _ _ _ _ H1 H2 Hq), finish_shape.
  assert (Hweb : web_results s2 = "").
  { rewrite retrieve_shape in H1. rewrite assess_shape in H2.
    unfold outcome in H1, H2. simpl in H1, H2.
    destruct (CRAGWorkflow.vectorstore w _ 5); [|discriminate].
    injection H1 as <-.
    destruct (CRAGAssessor.llm _ _); [|discriminate].
    injection H2 as <-. reflexivity. }
  destruct (CRAGWorkflow.llm w (generate_messages s2)) as [answer|e];
    cbn [trace outcome fst snd generation quality web_results set_generation];
    rewrite ?Hweb, ?Hq; repeat split; reflexivity.
Qed.

Lemma correct_never_searches_web_witness :
  let run := FinancialCRAG.query (sample_session "correct" (Some sample_tavily))
               "What is Apple's P/E ratio?" "AAPL" in
  count (is_enter "web_search") (trace run) = 0
  /\ count is_tavily (trace run) = 0.
Proof.
  intros run.
  destruct (correct_never_searches_web
              (sample_session "correct" (Some sample_tavily))
              (sample_workflow "correct" (Some sample_tavily))
              "What is Apple's P/E ratio?" "AAPL"
              (set_documents
                 (FinancialCRAG.initial_state "What is Apple's P/E ratio?"
                    "AAPL") sample_documents)
              (set_quality
                 (set_documents
                    (FinancialCRAG.initial_state "What is Apple's P/E ratio?"
                       "AAPL") sample_documents) "correct")
              eq_refl eq_refl eq_refl eq_refl) as [H1 [H2 _]].
  exact (conj H1 H2).
Defined.

(** C3. When the assess node stores [ambiguous] or [incorrect], the
    web_search node is entered exactly once, the Tavily client (when there
    is one) is called exactly once, and the node has returned before the
    generate node is entered. *)
Theorem insufficient_searches_web_once
    (self : FinancialCRAG.t) (w : CRAGWorkflow.t) (q tk : string)
    (s1 s2 : CRAGState) :
  FinancialCRAG.app self = Some (FinancialCRAG.crag_graph w) ->
  outcome (CRAGWorkflow.retrieve w
             (FinancialCRAG.initial_state q tk)) = Ok s1 ->
  outcome (CRAGWorkflow.assess w s1) = Ok s2 ->
  quality s2 = "ambiguous" \/ quality s2 = "incorrect" ->
  let run := trace (FinancialCRAG.query self q tk) in
  count (is_enter "web_search") run = 1
  /\ count is_tavily run
     = match CRAGWorkflow.tavily_client w with Some _ => 1 | None => 0 end
  /\ exists before after,
       run = (before ++ NodeExit "web_search" :: NodeEnter "generate"
                     :: after)%list
       /\ count (is_enter "web_search") before = 1
       /\ count is_tavily before = count is_tavily run
       /\ count (is_enter "generate") before = 0.
Proof.
  intros Happ H1 H2 Hq run. subst run.
  assert (Hne : quality s2 <> "correct")
    by (destruct Hq as [Hq | Hq]; rewrite Hq; discriminate).
  destruct (web_search_returns w s2) as [s3 H3].
  rewrite (query_shape _ _ _ _ Happ).
  rewrite (pipeline_web _ _ _ _ _ H1 H2 Hne H3), finish_shape.
  cbn [trace fst]. rewrite web_search_shape.
  destruct (CRAGWorkflow.tavily_client w) as [client|];
    destruct (CRAGWorkflow.llm w (generate_messages s3)) as [answer|e];
    cbn [fst]; (split; [reflexivity | split; [reflexivity |]]).
  - exists (trace_to_assess (FinancialCRAG.initial_state q tk) s1
            ++ [NodeEnter "web_search";
                TavilySearch (ticker s2 ++ " stock "
                              ++ question s2) 3])%list.
    eexists. repeat split.
  - exists (trace_to_assess (FinancialCRAG.initial_state q tk) s1
            ++ [NodeEnter "web_search";
                TavilySearch (ticker s2 ++ " stock "
                              ++ question s2) 3])%list.
    eexists. repeat split.
  - exists (trace_to_assess (FinancialCRAG.initial_state q tk) s1
            ++ [NodeEnter "web_search"])%list.
    eexists. repeat split.
  - exists (trace_to_assess (FinancialCRAG.initial_state q tk) s1
            ++ [NodeEnter "web_search"])%list.
    eexists. repeat split.
Qed.

Lemma insufficient_searches_web_once_witness :
  let run := trace (FinancialCRAG.query
                      (sample_session "not sure" (Some sample_tavily))
                      "Why did Apple stock move today?" "AAPL") in
  count (is_enter "web_search") run = 1 /\ count is_tavily run = 1.
Proof.
  intros run.
  destruct (insufficient_searches_web_once
              (sample_session "not sure" (Some sample_tavily))
              (sample_workflow "not sure" (Some sample_tavily))
              "Why did Apple stock move today?" "AAPL"
              (set_documents
                 (FinancialCRAG.initial_state
                    "Why did Apple stock move today?" "AAPL")
                 sample_documents)
              (set_quality
                 (set_documents
                    (FinancialCRAG.initial_state
                       "Why did Apple stock move today?" "AAPL")
                    sample_documents) "ambiguous")
              eq_refl eq_refl eq_refl (or_introl eq_refl)) as [H1 [H2 _]].
  exact (conj H1 H2).
Defined.

Lemma pipeline_retrieve_raises (w : CRAGWorkflow.t) (s0 : CRAGState) (e : exn) :
  outcome (CRAGWorkflow.retrieve w s0) = Raise e ->
  outcome (pipeline w s0) = Raise e.
Proof.
  intros H. unfold pipeline. destruct (CRAGWorkflow.retrieve w s0) as [t r].
  unfold outcome in H. simpl in H. subst r. reflexivity.
Qed.

Lemma pipeline_assess_raises (w : CRAGWorkflow.t) (s0 s1 : CRAGState) (e : exn) :
  outcome (CRAGWorkflow.retrieve w s0) = Ok s1 ->
  outcome (CRAGWorkflow.assess w s1) = Raise e ->
  outcome (pipeline w s0) = Raise e.
Proof.
  intros H1 H2. unfold pipeline.
  destruct (CRAGWorkflow.retrieve w s0) as [t1 r1].
  unfold outcome in H1. simpl in H1. subst r1. cbn [emit bind ret].
  destruct (CRAGWorkflow.assess w s1) as [t2 r2].
  unfold outcome in H2. simpl in H2. subst r2. reflexivity.
Qed.

(** A run that returns went through retrieve and assess and then along
    one of the two paths. *)
Lemma pipeline_completed (w : CRAGWorkflow.t) (s0 final : CRAGState) :
  outcome (pipeline w s0) = Ok final ->
  exists s1 s2,
    outcome (CRAGWorkflow.retrieve w s0) = Ok s1
    /\ outcome (CRAGWorkflow.assess w s1) = Ok s2
    /\ ((quality s2 = "correct"
         /\ pipeline w s0
            = ((trace_to_assess s0 s1 ++ trace (finish w s2))%list,
               outcome (finish w s2)))
        \/ (quality s2 <> "correct"
            /\ exists s3,
                 outcome (CRAGWorkflow.web_search w s2) = Ok s3
                 /\ pipeline w s0
                    = ((trace_to_assess s0 s1
                        ++ NodeEnter "web_search"
                           :: trace (CRAGWorkflow.web_search w s2)
                        ++ NodeExit "web_search" :: trace (finish w s3))%list,
                       outcome (finish w s3)))).
Proof.
  intros H.
  destruct (outcome (CRAGWorkflow.retrieve w s0)) as [s1|e] eqn:E1;
    [|rewrite (pipeline_retrieve_raises _ _ _ E1) in H; discriminate].
  destruct (outcome (CRAGWorkflow.assess w s1)) as [s2|e] eqn:E2;
    [|rewrite (pipeline_assess_raises _ _ _ _ E1 E2) in H; discriminate].
  exists s1, s2. split; [reflexivity | split; [assumption |]].
  destruct (String.eqb_spec (quality s2) "correct") as [Hq | Hq].
  - left. split; [assumption | now apply pipeline_correct].
  - right. split; [assumption |].
    destruct (web_search_returns w s2) as [s3 H3].
    exists s3. split; [assumption | now apply pipeline_web].
Qed.

Lemma retrieve_keeps (w : CRAGWorkflow.t) (s s' : CRAGState) :
  outcome (CRAGWorkflow.retrieve w s) = Ok s' ->
  question s' = question s /\ ticker s' = ticker s
  /\ web_results s' = web_results s.
Proof.
  rewrite retrieve_shape. unfold outcome. simpl.
  destruct (CRAGWorkflow.vectorstore w _ 5); [|discriminate].
  intros H. injection H as <-. repeat split.
Qed.

Lemma assess_keeps (w : CRAGWorkflow.t) (s s' : CRAGState) :
  outcome (CRAGWorkflow.assess w s) = Ok s' ->
  question s' = question s /\ ticker s' = ticker s
  /\ web_results s' = web_results s /\ documents s' = documents s.
Proof.
  rewrite assess_shape. unfold outcome. simpl.
  destruct (CRAGAssessor.llm _ _); [|discriminate].
  intros H. injection H as <-. repeat split.
Qed.

Lemma finish_keeps (w : CRAGWorkflow.t) (s s' : CRAGState) :
  outcome (finish w s) = Ok s' ->
  quality s' = quality s /\ web_results s' = web_results s
  /\ documents s' = documents s.
Proof.
  rewrite finish_shape. destruct (CRAGWorkflow.llm w _); [|discriminate].
  unfold outcome. simpl. intros H. injection H as <-. repeat split.
Qed.

(** C1 as stated fails: with no Tavily client and an [ambiguous]
    assessment, [query] reports [used_web = True]. *)
Lemma disabled_search_used_web_counterexample :
  FinancialCRAG.tavily (sample_session "not sure" None) = None
  /\ outcome (FinancialCRAG.query (sample_session "not sure" None)
                "Why did Apple stock move today?" "AAPL")
     = Ok (FinancialCRAG.mkResult "Why did Apple stock move today?"
             "Apple trades at 30 times earnings." "ambiguous" true)
  /\ ~ (exists r,
          outcome (FinancialCRAG.query (sample_session "not sure" None)
                     "Why did Apple stock move today?" "AAPL") = Ok r
          /\ FinancialCRAG.r_used_web r = false).
Proof.
  split; [reflexivity | split; [reflexivity |]].
  intros [r [H Hr]]. vm_compute in H. injection H as <-. discriminate.
Qed.

(** C1, amended. With no Tavily client and an [ambiguous] assessment the
    run enters the generate node, which receives the context built from
    [web_results = "[Web search disabled]"]; the run ends with that
    placeholder in [web_results], and [query] reports [used_web = True],
    the placeholder being a non-empty string. *)
Theorem disabled_search_still_generates
    (self : FinancialCRAG.t) (w : CRAGWorkflow.t) (q tk : string)
    (s1 s2 : CRAGState) :
  FinancialCRAG.app self = Some (FinancialCRAG.crag_graph w) ->
  CRAGWorkflow.tavily_client w = None ->
  outcome (CRAGWorkflow.retrieve w (FinancialCRAG.initial_state q tk))
  = Ok s1 ->
  outcome (CRAGWorkflow.assess w s1) = Ok s2 ->
  quality s2 = "ambiguous" ->
  let run := FinancialCRAG.query self q tk in
  let s3 := set_web_results s2 "[Web search disabled]" in
  count (is_enter "generate") (trace run) = 1
  /\ In (LLMInvoke (generate_messages s3)) (trace run)
  /\ outcome (StateGraph.invoke (FinancialCRAG.crag_graph w)
                (FinancialCRAG.initial_state q tk))
     = match CRAGWorkflow.llm w (generate_messages s3) with
       | Ok answer => Ok (set_generation s3 answer)
       | Raise e => Raise e
       end
  /\ outcome run
     = match CRAGWorkflow.llm w (generate_messages s3) with
       | Ok answer => Ok (FinancialCRAG.mkResult q answer "ambiguous" true)
       | Raise e => Raise e
       end.
Proof.
  intros Happ Hnone H1 H2 Hq run s3. subst run.
  assert (Hne : quality s2 <> "correct") by (rewrite Hq; discriminate).
  assert (H3 : outcome (CRAGWorkflow.web_search w s2) = Ok s3)
    by (rewrite web_search_shape, Hnone; reflexivity).
  rewrite (query_shape _ _ _ _ Happ), invoke_crag_graph.
  rewrite (pipeline_web _ _ _ _ _ H1 H2 Hne H3), finish_shape.
  rewrite web_search_shape, Hnone.
  destruct (CRAGWorkflow.llm w (generate_messages s3)) as [answer|e];
    cbn [trace outcome fst snd]; subst s3;
    cbn [generation quality web_results set_generation set_web_results
         str_bool]; rewrite ?Hq;
    (split; [reflexivity | split; [| split; reflexivity]]);
    apply in_or_app; right; simpl; auto 10.
Qed.

Lemma disabled_search_still_generates_witness :
  outcome (FinancialCRAG.query (sample_session "not sure" None)
             "Why did Apple stock move today?" "AAPL")
  = Ok (FinancialCRAG.mkResult "Why did Apple stock move today?"
          "Apple trades at 30 times earnings." "ambiguous" true).
Proof.
  exact (proj2 (proj2 (proj2
    (disabled_search_still_generates
       (sample_session "not sure" None) (sample_workflow "not sure" None)
       "Why did Apple stock move today?" "AAPL"
       (set_documents
          (FinancialCRAG.initial_state "Why did Apple stock move today?"
             "AAPL") sample_documents)
       (set_quality
          (set_documents
             (FinancialCRAG.initial_state "Why did Apple stock move today?"
                "AAPL") sample_documents) "ambiguous")
       eq_refl eq_refl eq_refl eq_refl eq_refl)))).
Defined.

(** ** The web_search node *)

(** C7. The web_search node always returns: with no client it stores the
    disabled-search placeholder, when the client raises it stores a
    placeholder that embeds the error, and it touches no other field; a
    run that enters web_search goes on to enter generate. *)
Theorem web_search_never_raises (w : CRAGWorkflow.t) (state : CRAGState) :
  (exists text,
     outcome (CRAGWorkflow.web_search w state)
     = Ok (set_web_results state text))
  /\ (CRAGWorkflow.tavily_client w = None ->
      CRAGWorkflow.web_search w state
      = ([], Ok (set_web_results state "[Web search disabled]")))
  /\ (forall client e,
        CRAGWorkflow.tavily_client w = Some client ->
        client (ticker state ++ " stock " ++ question state) 3 = Raise e ->
        outcome (CRAGWorkflow.web_search w state)
        = Ok (set_web_results state ("[Error: " ++ exn_str e ++ "]")))
  /\ (forall q tk,
        let run := trace (StateGraph.invoke (FinancialCRAG.crag_graph w)
                            (FinancialCRAG.initial_state q tk)) in
        In (NodeEnter "web_search") run -> In (NodeEnter "generate") run).
Proof.
  split; [| split; [| split]].
  - rewrite web_search_shape.
    destruct (CRAGWorkflow.tavily_client w); eexists; reflexivity.
  - intros H. now rewrite web_search_shape, H.
  - intros client e Hc He. rewrite web_search_shape, Hc. cbv zeta.
    now rewrite He.
  - intros q tk run. subst run. rewrite invoke_crag_graph. unfold pipeline.
    rewrite retrieve_shape.
    destruct (CRAGWorkflow.vectorstore w _ 5) as [docs|e];
      cbn [emit bind ret app trace fst];
      [| intros [H | [H | H]]; [discriminate | discriminate | destruct H]].
    rewrite assess_shape.
    destruct (CRAGAssessor.llm _ _) as [response|e];
      cbn [emit bind ret app trace fst];
      [| intros H; repeat (destruct H as [H | H]; [discriminate |]);
         destruct H].
    intros _. cbn [quality set_quality].
    destruct (_ =? "correct"); rewrite ?web_search_shape;
      [| destruct (CRAGWorkflow.tavily_client w)]; cbv zeta;
      cbn [emit bind ret app trace fst]; rewrite generate_shape;
      destruct (CRAGWorkflow.llm w _); simpl; auto 12.
Qed.

Lemma web_search_never_raises_witness :
  outcome (CRAGWorkflow.web_search
             (sample_workflow "not sure" (Some failing_tavily))
             (FinancialCRAG.initial_state "Why?" "AAPL"))
  = Ok (set_web_results (FinancialCRAG.initial_state "Why?" "AAPL")
          "[Error: timed out]").
Proof.
  exact (proj1 (proj2 (proj2
    (web_search_never_raises
       (sample_workflow "not sure" (Some failing_tavily))
       (FinancialCRAG.initial_state "Why?" "AAPL"))))
    failing_tavily (PyExc "ConnectionError" "timed out") eq_refl eq_refl).
Defined.

(** C9 as stated fails: a configured client that returns an empty result
    list leaves [web_results] empty although the run took the web-search
    branch. *)
Lemma empty_results_counterexample :
  let run := StateGraph.invoke
               (FinancialCRAG.crag_graph
                  (sample_workflow "not sure" (Some silent_tavily)))
               (FinancialCRAG.initial_state "Why did Apple stock move today?"
                  "AAPL") in
  count (is_enter "web_search") (trace run) = 1
  /\ outcome run
     = Ok (mkState "Why did Apple stock move today?" "AAPL" sample_documents
             "" "Apple trades at 30 times earnings." "ambiguous")
  /\ ~ (forall final,
          outcome run = Ok final ->
          (web_results final <> "" <-> quality final <> "correct")).
Proof.
  split; [reflexivity | split; [reflexivity |]].
  intros H. specialize (H _ eq_refl). simpl in H.
  apply (proj2 H); [discriminate | reflexivity].
Qed.

(** C9, amended. In a run that returns, the web_search node was entered
    exactly when the quality is not [correct]; a non-empty [web_results]
    implies that branch; on that branch [web_results] is what the node
    stored, and it is empty exactly when a configured client returned,
    without raising, no result or a single result with empty content. *)
Theorem web_results_imply_web_branch
    (w : CRAGWorkflow.t) (q tk : string) (final : CRAGState) :
  let run := StateGraph.invoke (FinancialCRAG.crag_graph w)
               (FinancialCRAG.initial_state q tk) in
  outcome run = Ok final ->
  (count (is_enter "web_search") (trace run)
   = if quality final =? "correct" then 0 else 1)
  /\ (web_results final <> "" -> quality final <> "correct")
  /\ (quality final <> "correct" ->
      web_results final
      = match CRAGWorkflow.tavily_client w with
        | None => "[Web search disabled]"
        | Some client =>
            match client (tk ++ " stock " ++ q) 3 with
            | Ok response =>
                str_join LFLF (map CRAGWorkflow.item_text
                                   (CRAGWorkflow.results_of response))
            | Raise e => "[Error: " ++ exn_str e ++ "]"
            end
        end)
  /\ (quality final <> "correct" ->
      (web_results final = "" <->
       exists client response,
         CRAGWorkflow.tavily_client w = Some client
         /\ client (tk ++ " stock " ++ q) 3 = Ok response
         /\ (CRAGWorkflow.results_of response = []
             \/ exists r, CRAGWorkflow.results_of response = [r]
                          /\ CRAGWorkflow.item_text r = ""))).
Proof.
  intros run Hfinal. subst run. rewrite invoke_crag_graph in *.
  destruct (pipeline_completed _ _ _ Hfinal)
    as [s1 [s2 [H1 [H2 [[Hq Hp] | [Hq [s3 [H3 Hp]]]]]]]];
    rewrite Hp in *; cbn [trace outcome fst snd] in *;
    destruct (retrieve_keeps _ _ _ H1) as [Hq1 [Ht1 Hw1]];
    destruct (assess_keeps _ _ _ H2) as [Hq2 [Ht2 [Hw2 _]]];
    destruct (finish_keeps _ _ _ Hfinal) as [Hfq [Hfw _]].
  - assert (Hweb : web_results final = "")
      by (rewrite Hfw, Hw2, Hw1; reflexivity).
    rewrite Hfq, Hq, Hweb. rewrite finish_shape.
    repeat split; try congruence.
    destruct (CRAGWorkflow.llm w _); reflexivity.
  - assert (Hs3 : s3 = set_web_results s2
      match CRAGWorkflow.tavily_client w with
      | None => "[Web search disabled]"
      | Some client =>
          match client (tk ++ " stock " ++ q) 3 with
          | Ok response =>
              str_join LFLF (map CRAGWorkflow.item_text
                                 (CRAGWorkflow.results_of response))
          | Raise e => "[Error: " ++ exn_str e ++ "]"
          end
      end).
    { rewrite web_search_shape in H3.
      rewrite Ht2, Ht1, Hq2, Hq1 in H3. simpl in H3.
      destruct (CRAGWorkflow.tavily_client w) as [client|];
        unfold outcome in H3; simpl in H3; injection H3 as <-; reflexivity. }
    assert (Hstored : web_results final = web_results s3) by assumption.
    rewrite Hs3 in Hstored, Hfq. cbn [web_results quality set_web_results]
      in Hstored, Hfq. clear Hs3.
    rewrite Hfq. apply String.eqb_neq in Hq as Hqb. rewrite Hqb.
    split; [| split; [auto | split; [auto |]]].
    + rewrite finish_shape, web_search_shape.
      destruct (CRAGWorkflow.tavily_client w);
        destruct (CRAGWorkflow.llm w _); reflexivity.
    + intros _. rewrite Hstored.
      destruct (CRAGWorkflow.tavily_client w) as [client|].
      * destruct (client (tk ++ " stock " ++ q) 3) as [response|e] eqn:Ec.
        -- rewrite str_join_empty_iff by discriminate. split.
           ++ intros Hl. exists client, response.
              split; [reflexivity | split; [exact Ec |]].
              destruct (CRAGWorkflow.results_of response) as [|r [|r' l]];
                simpl in Hl; destruct Hl as [Hl | Hl]; try discriminate.
              ** now left.
              ** right. exists r. split; [reflexivity | now injection Hl].
           ++ intros [c [resp [Hc [Hr Hl]]]].
              injection Hc as <-. rewrite Ec in Hr. injection Hr as <-.
              destruct Hl as [-> | [r [-> Hr]]]; simpl; [now left |].
              right. now rewrite Hr.
        -- split; [discriminate |].
           intros [c [resp [Hc [Hr _]]]]. injection Hc as <-.
           rewrite Ec in Hr. discriminate.
      * split; [discriminate |]. intros [c [resp [Hc _]]]. discriminate.
Qed.

Lemma web_results_imply_web_branch_witness :
  count (is_enter "web_search")
    (trace (StateGraph.invoke
              (FinancialCRAG.crag_graph
                 (sample_workflow "not sure" (Some sample_tavily)))
              (FinancialCRAG.initial_state "Why did Apple stock move today?"
                 "AAPL")))
  = 1.
Proof.
  exact (proj1
    (web_results_imply_web_branch
       (sample_workflow "not sure" (Some sample_tavily))
       "Why did Apple stock move today?" "AAPL"
       (mkState "Why did Apple stock move today?" "AAPL" sample_documents
          "Apple beat estimates." "Apple trades at 30 times earnings."
          "ambiguous")
       eq_refl)).
Defined.

(** ** Context assembly *)

Lemma str_join_length (docs : list Document) :
  String.length (str_join LFLF (map page_content docs))
  = contents_length docs + 2 * (List.length docs - 1).
Proof.
  induction docs as [|d [|d' docs] IH].
  - reflexivity.
  - simpl. lia.
  - change (str_join LFLF (map page_content (d :: d' :: docs)))
      with (page_content d ++ LFLF
            ++ str_join LFLF (map page_content (d' :: docs))).
    rewrite !append_length, IH. simpl. lia.
Qed.

Lemma truncation_bound (n : nat) (s p : string) :
  Truncation n s p -> String.length p <= n.
Proof. intros [_ H]. rewrite H. apply Nat.le_min_l. Qed.

(** C4. When the quality is not [correct], the generator receives
    ["Local:"], then the first two documents, each cut to its first 800
    characters, joined by blank lines, then ["Web:"] and the whole of
    [web_results]; later documents play no part. *)
Theorem context_with_web (w : CRAGWorkflow.t) (state : CRAGState) :
  quality state <> "correct" ->
  exists local,
    trace (CRAGWorkflow.generate w state)
    = [LLMInvoke
         (CRAGWorkflow.GENERATION_PROMPT (question state)
            ("Local:" ++ LF ++ str_join LFLF local ++ LFLF
             ++ "Web:" ++ LF ++ web_results state))]
    /\ Forall2 (fun doc part => Truncation 800 (page_content doc) part)
               (firstn 2 (documents state)) local
    /\ List.length local = Nat.min 2 (List.length (documents state))
    /\ (forall part, In part local -> String.length part <= 800)
    /\ (forall d1 d2 rest more,
          documents state = d1 :: d2 :: rest ->
          CRAGWorkflow.generate_context (set_documents state (d1 :: d2 :: more))
          = CRAGWorkflow.generate_context state).
Proof.
  intros Hq. apply String.eqb_neq in Hq.
  exists (map (fun doc => str_take 800 (page_content doc))
              (firstn 2 (documents state))).
  split; [| split; [| split; [| split]]].
  - rewrite generate_shape. unfold generate_messages,
      CRAGWorkflow.generate_context. now rewrite Hq.
  - induction (firstn 2 (documents state)) as [|d l IH]; simpl;
      constructor; [apply str_take_truncation | exact IH].
  - now rewrite length_map, length_firstn.
  - intros part Hin. apply in_map_iff in Hin as [doc [<- _]].
    apply (truncation_bound 800 (page_content doc)), str_take_truncation.
  - intros d1 d2 rest more Hdocs. unfold CRAGWorkflow.generate_context.
    cbn [quality documents web_results set_documents]. now rewrite Hq, Hdocs.
Qed.

Lemma context_with_web_witness :
  exists local,
    trace (CRAGWorkflow.generate (sample_workflow "not sure" None)
             (mkState "Why?" "AAPL" sample_documents "[Web search disabled]"
                "" "ambiguous"))
    = [LLMInvoke
         (CRAGWorkflow.GENERATION_PROMPT "Why?"
            ("Local:" ++ LF ++ str_join LFLF local ++ LFLF
             ++ "Web:" ++ LF ++ "[Web search disabled]"))].
Proof.
  destruct (context_with_web (sample_workflow "not sure" None)
              (mkState "Why?" "AAPL" sample_documents "[Web search disabled]"
                 "" "ambiguous")
              ltac:(discriminate)) as [local [H _]].
  exists local. exact H.
Defined.

(** C5. When the quality is [correct], the generator receives the whole
    content of every retrieved document, in retrieval order, joined by
    blank lines: nothing is cut, and five documents give the five contents
    one after the other. *)
Theorem context_when_correct (w : CRAGWorkflow.t) (state : CRAGState) :
  quality state = "correct" ->
  trace (CRAGWorkflow.generate w state)
  = [LLMInvoke
       (CRAGWorkflow.GENERATION_PROMPT (question state)
          (CRAGWorkflow.generate_context state))]
  /\ CRAGWorkflow.generate_context state
     = str_join LFLF (map page_content (documents state))
  /\ String.length (CRAGWorkflow.generate_context state)
     = contents_length (documents state)
       + 2 * (List.length (documents state) - 1)
  /\ (forall d1 d2 d3 d4 d5,
        documents state = [d1; d2; d3; d4; d5] ->
        CRAGWorkflow.generate_context state
        = page_content d1 ++ LFLF ++ page_content d2 ++ LFLF
          ++ page_content d3 ++ LFLF ++ page_content d4 ++ LFLF
          ++ page_content d5).
Proof.
  intros Hq.
  assert (Hctx : CRAGWorkflow.generate_context state
                 = str_join LFLF (map page_content (documents state)))
    by (unfold CRAGWorkflow.generate_context; now rewrite Hq).
  split; [| split; [| split]].
  - now rewrite generate_shape.
  - exact Hctx.
  - rewrite Hctx. apply str_join_length.
  - intros d1 d2 d3 d4 d5 Hdocs. now rewrite Hctx, Hdocs.
Qed.

Lemma context_when_correct_witness :
  CRAGWorkflow.generate_context
    (mkState "What is Apple's P/E ratio?" "AAPL" sample_documents "" ""
       "correct")
  = "STOCK: AAPL - Apple Inc." ++ LFLF
    ++ "[2024-05-02] Apple reports earnings" ++ LF ++ "Revenue rose.".
Proof.
  exact (proj1 (proj2
    (context_when_correct (sample_workflow "correct" None)
       (mkState "What is Apple's P/E ratio?" "AAPL" sample_documents "" ""
          "correct")
       eq_refl))).
Defined.

(** ** The assessor's parser *)

(** C6. The parser lower-cases and trims the response, answers [correct]
    when ["correct"] occurs in it, otherwise [incorrect] when
    ["incorrect"] occurs in it, otherwise [ambiguous]; ["Correct"] and
    ["This is incorrect"] both give [correct], ["not sure"] gives
    [ambiguous]. *)
Theorem parse_result_policy (response : string) :
  let cleaned := str_strip (str_lower response) in
  (Substring "correct" cleaned ->
   CRAGAssessor.parse_result response = "correct")
  /\ (~ Substring "correct" cleaned -> Substring "incorrect" cleaned ->
      CRAGAssessor.parse_result response = "incorrect")
  /\ (~ Substring "correct" cleaned -> ~ Substring "incorrect" cleaned ->
      CRAGAssessor.parse_result response = "ambiguous")
  /\ CRAGAssessor.parse_result "Correct" = "correct"
  /\ CRAGAssessor.parse_result "This is incorrect" = "correct"
  /\ CRAGAssessor.parse_result "not sure" = "ambiguous".
Proof.
  intros cleaned. unfold CRAGAssessor.parse_result. fold cleaned.
  repeat split; try reflexivity.
  - intros H. apply str_in_iff in H. now rewrite H.
  - intros Hc Hi. apply str_in_iff in Hi. rewrite Hi.
    destruct (str_in "correct" cleaned) eqn:E; [|reflexivity].
    apply str_in_iff in E. contradiction.
  - intros Hc Hi.
    destruct (str_in "correct" cleaned) eqn:E;
      [apply str_in_iff in E; contradiction |].
    destruct (str_in "incorrect" cleaned) eqn:E';
      [apply str_in_iff in E'; contradiction | reflexivity].
Qed.

Lemma parse_result_policy_witness :
  CRAGAssessor.parse_result "  The documents are CORRECT. " = "correct".
Proof.
  apply (proj1 (parse_result_policy "  The documents are CORRECT. ")).
  exists "the documents are ", ".". reflexivity.
Defined.

(** C10. The parser never answers [incorrect]: a text in which
    ["incorrect"] occurs is a text in which ["correct"] occurs, so the
    first test wins; the parser answers [correct] or [ambiguous], and no
    state leaves the assess node with quality [incorrect]. *)
Theorem incorrect_is_unreachable (response : string) :
  (forall text, Substring "incorrect" text -> Substring "correct" text)
  /\ CRAGAssessor.parse_result response <> "incorrect"
  /\ (CRAGAssessor.parse_result response = "correct"
      \/ CRAGAssessor.parse_result response = "ambiguous")
  /\ (forall a q docs verdict,
        outcome (CRAGAssessor.assess a q docs) = Ok verdict ->
        verdict <> "incorrect")
  /\ (forall w state state',
        outcome (CRAGWorkflow.assess w state) = Ok state' ->
        quality state' <> "incorrect").
Proof.
  assert (Hparse : forall r, CRAGAssessor.parse_result r = "correct"
                             \/ CRAGAssessor.parse_result r = "ambiguous").
  { intros r. unfold CRAGAssessor.parse_result.
    destruct (str_in "correct" _) eqn:E; [now left |].
    destruct (str_in "incorrect" _) eqn:E'; [| now right].
    apply str_in_iff, incorrect_contains_correct, str_in_iff in E'.
    congruence. }
  assert (Hne : forall r, CRAGAssessor.parse_result r <> "incorrect")
    by (intros r; destruct (Hparse r) as [H | H]; rewrite H; discriminate).
  split; [exact incorrect_contains_correct |].
  split; [apply Hne |]. split; [apply Hparse |]. split.
  - intros a q docs verdict. rewrite assessor_shape. unfold outcome. simpl.
    destruct (CRAGAssessor.llm a _); [|discriminate].
    intros H. injection H as <-. apply Hne.
  - intros w state state'. rewrite assess_shape. unfold outcome. simpl.
    destruct (CRAGAssessor.llm _ _); [|discriminate].
    intros H. injection H as <-. apply Hne.
Qed.

Lemma incorrect_is_unreachable_witness :
  quality (set_quality
             (set_documents (FinancialCRAG.initial_state "Why?" "AAPL")
                sample_documents) "correct")
  <> "incorrect".
Proof.
  exact (proj2 (proj2 (proj2 (proj2 (incorrect_is_unreachable "incorrect"))))
           (sample_workflow "incorrect" None)
           (set_documents (FinancialCRAG.initial_state "Why?" "AAPL")
              sample_documents)
           _ eq_refl).
Defined.

(** ** Setup *)

(** C8 as stated fails: the news service raises, and setup succeeds all
    the same, with the text ["News unavailable."] as the news document. *)
Lemma news_failure_counterexample :
  DataExtractor.get_news_try newsless_extractor "AAPL"
  = Raise (PyExc "NewsAPIException" "rateLimited")
  /\ snd (FinancialCRAG.setup
            (with_extractor newsless_extractor (fresh_session "correct" None))
            sample_Chroma "AAPL")
     = Ok tt
  /\ FinancialCRAG.app
       (fst (FinancialCRAG.setup
               (with_extractor newsless_extractor
                  (fresh_session "correct" None))
               sample_Chroma "AAPL"))
     <> None
  /\ outcome (FinancialCRAG.query
                (fst (FinancialCRAG.setup
                        (with_extractor newsless_extractor
                           (fresh_session "correct" None))
                        sample_Chroma "AAPL"))
                "Recent news?" "AAPL")
     = Ok (FinancialCRAG.mkResult "Recent news?"
             "Apple trades at 30 times earnings." "correct" false).
Proof.
  split; [reflexivity | split; [reflexivity | split; [| reflexivity]]].
  discriminate.
Qed.

(** C8, amended. An error of the market data service or of the indexing
    service makes [setup] raise and leaves the object as it was: a
    session that was not ready stays unready, an earlier session stays
    whole.  A failure of the news service is not an error of [setup]:
    [get_news] answers ["News unavailable."], and [setup] succeeds as soon
    as the two other services do. *)
Theorem setup_failure_leaves_session
    (self : FinancialCRAG.t)
    (Chroma_from_documents : list Document -> result VectorStore)
    (tk : string) :
  let stock := DataExtractor.get_stock_data (FinancialCRAG.extractor self) tk in
  let news := DataExtractor.get_news (FinancialCRAG.extractor self) tk in
  (forall e,
     stock = Raise e ->
     FinancialCRAG.setup self Chroma_from_documents tk = (self, Raise e))
  /\ (forall text e,
        stock = Ok text ->
        Chroma_from_documents (FinancialCRAG.setup_documents tk text news)
        = Raise e ->
        FinancialCRAG.setup self Chroma_from_documents tk = (self, Raise e))
  /\ (forall e self',
        FinancialCRAG.setup self Chroma_from_documents tk = (self', Raise e) ->
        self' = self
        /\ (FinancialCRAG.app self = None ->
            forall q tk',
              FinancialCRAG.query self' q tk'
              = raise (PyExc "RuntimeError" "Call setup() first")))
  /\ (forall e,
        DataExtractor.get_news_try (FinancialCRAG.extractor self) tk = Raise e ->
        news = "News unavailable.")
  /\ (forall text store,
        stock = Ok text ->
        Chroma_from_documents (FinancialCRAG.setup_documents tk text news)
        = Ok store ->
        FinancialCRAG.setup self Chroma_from_documents tk
        = (FinancialCRAG.mk (FinancialCRAG.extractor self)
             (FinancialCRAG.llm self) (FinancialCRAG.assessor self)
             (FinancialCRAG.tavily self) (Some store)
             (Some (FinancialCRAG.crag_graph
                      (CRAGWorkflow.mk store (FinancialCRAG.llm self)
                         (FinancialCRAG.assessor self)
                         (FinancialCRAG.tavily self)))),
           Ok tt)).
Proof.
  intros stock news. subst stock news. unfold FinancialCRAG.setup.
  split; [| split; [| split; [| split]]].
  - intros e ->. reflexivity.
  - intros text e -> ->. reflexivity.
  - intros e self'.
    destruct (DataExtractor.get_stock_data _ tk) as [text|e0].
    + destruct (Chroma_from_documents _) as [store|e1].
      * rewrite crag_graph_valid. discriminate.
      * intros H. injection H as <- _. split; [reflexivity |].
        intros Happ q tk'. unfold FinancialCRAG.query. now rewrite Happ.
    + intros H. injection H as <- _. split; [reflexivity |].
      intros Happ q tk'. unfold FinancialCRAG.query. now rewrite Happ.
  - intros e H. unfold DataExtractor.get_news. now rewrite H.
  - intros text store -> ->. rewrite crag_graph_valid. reflexivity.
Qed.

Lemma setup_failure_leaves_session_witness :
  FinancialCRAG.setup
    (with_extractor stockless_extractor (sample_session "correct" None))
    sample_Chroma "MSFT"
  = (with_extractor stockless_extractor (sample_session "correct" None),
     Raise (PyExc "KeyError" "Close")).
Proof.
  exact (proj1
    (setup_failure_leaves_session
       (with_extractor stockless_extractor (sample_session "correct" None))
       sample_Chroma "MSFT")
    (PyExc "KeyError" "Close") eq_refl).
Defined.

(** ** More on the assessor *)

Lemma str_join_parts_length (parts : list string) :
  String.length (str_join LFLF parts)
  = list_sum (map String.length parts) + 2 * (List.length parts - 1).
Proof.
  induction parts as [|p [|p' parts] IH].
  - reflexivity.
  - simpl. lia.
  - change (str_join LFLF (p :: p' :: parts))
      with (p ++ LFLF ++ str_join LFLF (p' :: parts)).
    rewrite !append_length, IH. simpl. lia.
Qed.

Lemma list_sum_bound (m : nat) (l : list nat) :
  Forall (fun n => n <= m) l -> list_sum l <= List.length l * m.
Proof.
  induction 1 as [|n l Hn _ IH]; simpl; [reflexivity | lia].
Qed.

Lemma take_parts_bound (m k : nat) (docs : list Document) :
  String.length
    (str_join LFLF
       (map (fun d => str_take m (page_content d)) (firstn k docs)))
  <= k * m + 2 * (k - 1).
Proof.
  rewrite str_join_parts_length.
  set (parts := map (fun d => str_take m (page_content d)) (firstn k docs)).
  assert (Hlen : List.length parts <= k)
    by (unfold parts; rewrite length_map; apply firstn_le_length).
  assert (Hall : Forall (fun n => n <= m) (map String.length parts)).
  { unfold parts. rewrite map_map. apply Forall_forall. intros n Hin.
    apply in_map_iff in Hin as [d [<- _]].
    destruct (str_take_truncation m (page_content d)) as [_ ->].
    apply Nat.le_min_l. }
  apply list_sum_bound in Hall. rewrite length_map in Hall. nia.
Qed.

Lemma take_parts_truncations (m : nat) (docs : list Document) :
  Forall2 (fun d p => Truncation m (page_content d) p) docs
          (map (fun d => str_take m (page_content d)) docs).
Proof.
  induction docs as [|d docs IH]; simpl; constructor;
    [apply str_take_truncation | exact IH].
Qed.

(** X1. The assessor shows the chat model at most three documents, each
    cut to its first 500 characters: the documents part of the prompt has
    at most 1504 characters, and the call is the one made for the first
    three documents alone. *)
Theorem assessor_reads_three_documents
    (a : CRAGAssessor.t) (q : string) (docs : list Document) :
  String.length (CRAGAssessor.docs_text docs) <= 1504
  /\ (exists parts,
        CRAGAssessor.docs_text docs = str_join LFLF parts
        /\ Forall2 (fun d p => Truncation 500 (page_content d) p)
                   (firstn 3 docs) parts)
  /\ CRAGAssessor.assess a q (firstn 3 docs) = CRAGAssessor.assess a q docs.
Proof.
  split; [| split].
  - apply (take_parts_bound 500 3).
  - eexists. split; [reflexivity | apply take_parts_truncations].
  - unfold CRAGAssessor.assess, CRAGAssessor.docs_text.
    now rewrite firstn_firstn.
Qed.

Lemma str_lower_append (a b : string) :
  str_lower (a ++ b) = str_lower a ++ str_lower b.
Proof. induction a as [|c a IH]; simpl; [reflexivity | now rewrite IH]. Qed.

Lemma starts_with_space (n s : string) (c : ascii) :
  no_space n = true -> n <> "" -> is_space c = true ->
  starts_with n (String c s) = false.
Proof.
  intros Hn Hne Hc. destruct n as [|a n]; [contradiction |].
  simpl in *. apply andb_true_iff in Hn as [Ha _].
  destruct (Ascii.eqb_spec a c) as [-> | _]; [| reflexivity].
  rewrite Hc in Ha. discriminate.
Qed.

Lemma str_in_lstrip (n s : string) :
  no_space n = true -> n <> "" -> str_in n (str_lstrip s) = str_in n s.
Proof.
  intros Hn Hne. induction s as [|c s IH]; [reflexivity |].
  cbn [str_lstrip]. destruct (is_space c) eqn:Hc; [| reflexivity].
  rewrite IH. cbn [str_in]. now rewrite starts_with_space.
Qed.

Lemma starts_with_rstrip (s n : string) :
  no_space n = true -> starts_with n (str_rstrip s) = starts_with n s.
Proof.
  revert n. induction s as [|c s IH]; intros n Hn; [reflexivity |].
  destruct n as [|a n]; [now destruct (str_rstrip (String c s)) |].
  simpl in Hn. apply andb_true_iff in Hn as [Ha Hn].
  specialize (IH n Hn). cbn [str_rstrip].
  destruct (str_rstrip s) as [|c' r].
  - destruct (is_space c) eqn:Hc; cbn [starts_with].
    + destruct (Ascii.eqb_spec a c) as [-> | _]; [| reflexivity].
      rewrite Hc in Ha. discriminate.
    + now rewrite <- IH.
  - cbn [starts_with] in *. now rewrite IH.
Qed.

Lemma str_in_rstrip (n s : string) :
  no_space n = true -> n <> "" -> str_in n (str_rstrip s) = str_in n s.
Proof.
  intros Hn Hne. induction s as [|c s IH]; [reflexivity |].
  cbn [str_in]. rewrite <- IH, <- (starts_with_rstrip (String c s) n Hn).
  cbn [str_rstrip]. destruct (str_rstrip s) as [|c' r].
  - destruct (is_space c); cbn [str_in]; [| reflexivity].
    destruct n; [contradiction | reflexivity].
  - reflexivity.
Qed.

(** Trimming does not move a word in or out of a text. *)
Lemma str_in_strip (n s : string) :
  no_space n = true -> n <> "" -> str_in n (str_strip s) = str_in n s.
Proof.
  intros Hn Hne. unfold str_strip.
  now rewrite str_in_rstrip, str_in_lstrip.
Qed.

Lemma parse_result_cases (response : string) :
  (str_in "correct" (str_lower response) = true
   /\ CRAGAssessor.parse_result response = "correct")
  \/ (str_in "correct" (str_lower response) = false
      /\ CRAGAssessor.parse_result response = "ambiguous").
Proof.
  unfold CRAGAssessor.parse_result.
  rewrite (str_in_strip "correct") by (reflexivity || discriminate).
  rewrite (str_in_strip "incorrect") by (reflexivity || discriminate).
  destruct (str_in "correct" (str_lower response)) eqn:E; [now left |].
  right. split; [reflexivity |].
  destruct (str_in "incorrect" _) eqn:E'; [| reflexivity].
  apply str_in_iff, incorrect_contains_correct, str_in_iff in E'. congruence.
Qed.

(** X2. The verdict depends on the response through its lower-cased text
    alone, trimming plays no part: it is [correct] exactly when
    ["correct"] occurs in the lower-cased response, and [ambiguous]
    otherwise. *)
Theorem verdict_reads_lowercase_text (response : string) :
  (CRAGAssessor.parse_result response = "correct"
   <-> Substring "correct" (str_lower response))
  /\ (CRAGAssessor.parse_result response = "ambiguous"
      <-> ~ Substring "correct" (str_lower response)).
Proof.
  rewrite <- str_in_iff.
  destruct (parse_result_cases response) as [[E ->] | [E ->]]; rewrite E;
    repeat split; try reflexivity; try discriminate; try congruence.
Qed.

(** X3. A response that embeds a response judged [correct] is judged
    [correct]: no text around it, a negation included, changes the
    verdict. *)
Theorem verdict_correct_is_monotone (before response after : string) :
  CRAGAssessor.parse_result response = "correct" ->
  CRAGAssessor.parse_result (before ++ response ++ after) = "correct".
Proof.
  intros H.
  destruct (parse_result_cases response) as [[E _] | [_ E]];
    [| rewrite E in H; discriminate].
  destruct (parse_result_cases (before ++ response ++ after))
    as [[_ E'] | [E' _]]; [exact E' |].
  apply str_in_iff in E as [x [y E]].
  assert (Hin : str_in "correct"
                  (str_lower (before ++ response ++ after)) = true).
  { apply str_in_iff. rewrite !str_lower_append, E.
    exists (str_lower before ++ x), (y ++ str_lower after).
    now rewrite !append_assoc. }
  congruence.
Qed.

Lemma verdict_correct_is_monotone_witness :
  CRAGAssessor.parse_result ("The documents are not " ++ "Correct" ++ " at all")
  = "correct".
Proof.
  exact (verdict_correct_is_monotone "The documents are not " "Correct"
           " at all" eq_refl).
Defined.

(** ** More on the run *)

Lemma retrieve_inv (w : CRAGWorkflow.t) (s s' : CRAGState) :
  outcome (CRAGWorkflow.retrieve w s) = Ok s' ->
  exists docs,
    CRAGWorkflow.vectorstore w (question s) 5 = Ok docs
    /\ s' = set_documents s docs.
Proof.
  rewrite retrieve_shape. unfold outcome. simpl.
  destruct (CRAGWorkflow.vectorstore w _ 5) as [docs|e]; [|discriminate].
  intros H. injection H as <-. now exists docs.
Qed.

Lemma assess_inv (w : CRAGWorkflow.t) (s s' : CRAGState) :
  outcome (CRAGWorkflow.assess w s) = Ok s' ->
  exists response,
    CRAGAssessor.llm (CRAGWorkflow.assessor w)
      (CRAGAssessor.ASSESSMENT_PROMPT (question s)
         (CRAGAssessor.docs_text (documents s))) = Ok response
    /\ s' = set_quality s (CRAGAssessor.parse_result response).
Proof.
  rewrite assess_shape. unfold outcome. simpl.
  destruct (CRAGAssessor.llm _ _) as [response|e]; [|discriminate].
  intros H. injection H as <-. now exists response.
Qed.

Lemma web_search_inv (w : CRAGWorkflow.t) (s s' : CRAGState) :
  outcome (CRAGWorkflow.web_search w s) = Ok s' ->
  exists text, s' = set_web_results s text.
Proof.
  rewrite web_search_shape.
  destruct (CRAGWorkflow.tavily_client w); unfold outcome; simpl;
    intros H; injection H as <-; eexists; reflexivity.
Qed.

Lemma finish_inv (w : CRAGWorkflow.t) (s final : CRAGState) :
  outcome (finish w s) = Ok final ->
  CRAGWorkflow.llm w (generate_messages s) = Ok (generation final)
  /\ final = set_generation s (generation final).
Proof.
  rewrite finish_shape.
  destruct (CRAGWorkflow.llm w _) as [answer|e]; [|discriminate].
  unfold outcome. simpl. intros H. injection H as <-. now split.
Qed.

Lemma query_outcome (self : FinancialCRAG.t) (w : CRAGWorkflow.t)
    (q tk : string) :
  FinancialCRAG.app self = Some (FinancialCRAG.crag_graph w) ->
  trace (FinancialCRAG.query self q tk)
  = trace (pipeline w (FinancialCRAG.initial_state q tk))
  /\ outcome (FinancialCRAG.query self q tk)
     = match outcome (pipeline w (FinancialCRAG.initial_state q tk)) with
       | Ok final =>
           Ok (FinancialCRAG.mkResult q (generation final) (quality final)
                 (str_bool (web_results final)))
       | Raise e => Raise e
       end.
Proof. intros Happ. now rewrite (query_shape _ _ _ _ Happ). Qed.

(** X4. A failure of the vector store or of the assessment ends the run
    on the spot: [query] raises the same exception, and nothing that
    comes later is called, neither the web search nor the generator. *)
Theorem early_failure_stops_run
    (self : FinancialCRAG.t) (w : CRAGWorkflow.t) (q tk : string) (e : exn) :
  FinancialCRAG.app self = Some (FinancialCRAG.crag_graph w) ->
  (CRAGWorkflow.vectorstore w q 5 = Raise e ->
   FinancialCRAG.query self q tk
   = ([NodeEnter "retrieve"; SimilaritySearch q 5], Raise e))
  /\ (forall docs,
        CRAGWorkflow.vectorstore w q 5 = Ok docs ->
        CRAGAssessor.llm (CRAGWorkflow.assessor w)
          (CRAGAssessor.ASSESSMENT_PROMPT q (CRAGAssessor.docs_text docs))
        = Raise e ->
        FinancialCRAG.query self q tk
        = ([NodeEnter "retrieve"; SimilaritySearch q 5; NodeExit "retrieve";
            NodeEnter "assess";
            LLMInvoke (CRAGAssessor.ASSESSMENT_PROMPT q
                         (CRAGAssessor.docs_text docs))],
           Raise e)).
Proof.
  intros Happ. rewrite (query_shape _ _ _ _ Happ). unfold pipeline.
  rewrite retrieve_shape. cbn [question FinancialCRAG.initial_state].
  split.
  - intros ->. reflexivity.
  - intros docs -> Hllm. cbn [emit bind ret app]. rewrite assess_shape.
    cbn [question documents set_documents FinancialCRAG.initial_state].
    rewrite Hllm. reflexivity.
Qed.

Lemma early_failure_stops_run_witness :
  FinancialCRAG.query failing_store_session "Why?" "AAPL"
  = ([NodeEnter "retrieve"; SimilaritySearch "Why?" 5],
     Raise (PyExc "ConnectionError" "store down")).
Proof.
  exact (proj1 (early_failure_stops_run failing_store_session
                  failing_store_workflow "Why?" "AAPL"
                  (PyExc "ConnectionError" "store down") eq_refl)
           eq_refl).
Defined.

(** X5. The executor and the web search add no failure of their own:
    [query] returns whenever the vector store, the assessment and the
    generation return, and an exception that leaves [query] was raised by
    one of these three calls. *)
Theorem query_fails_only_with_a_service
    (self : FinancialCRAG.t) (w : CRAGWorkflow.t) (q tk : string) :
  FinancialCRAG.app self = Some (FinancialCRAG.crag_graph w) ->
  ((forall x, exists docs, CRAGWorkflow.vectorstore w x 5 = Ok docs) ->
   (forall m, exists text,
      CRAGAssessor.llm (CRAGWorkflow.assessor w) m = Ok text) ->
   (forall m, exists text, CRAGWorkflow.llm w m = Ok text) ->
   exists answered, outcome (FinancialCRAG.query self q tk) = Ok answered)
  /\ (forall e,
        outcome (FinancialCRAG.query self q tk) = Raise e ->
        CRAGWorkflow.vectorstore w q 5 = Raise e
        \/ (exists docs,
              CRAGWorkflow.vectorstore w q 5 = Ok docs
              /\ CRAGAssessor.llm (CRAGWorkflow.assessor w)
                   (CRAGAssessor.ASSESSMENT_PROMPT q
                      (CRAGAssessor.docs_text docs)) = Raise e)
        \/ (exists m,
              In (LLMInvoke m) (trace (FinancialCRAG.query self q tk))
              /\ CRAGWorkflow.llm w m = Raise e)).
Proof.
  intros Happ. destruct (query_outcome self w q tk Happ) as [Ht Ho].
  rewrite Ht, Ho. clear Ht Ho.
  set (s0 := FinancialCRAG.initial_state q tk).
  assert (Hfinish : forall s pre,
            match outcome (finish w s) with
            | Ok _ => True
            | Raise e =>
                In (LLMInvoke (generate_messages s))
                   (pre ++ trace (finish w s))%list
                /\ CRAGWorkflow.llm w (generate_messages s) = Raise e
            end).
  { intros s pre. rewrite finish_shape.
    destruct (CRAGWorkflow.llm w (generate_messages s)); cbn [outcome snd];
      [exact I |].
    split; [| reflexivity]. apply in_or_app. right. simpl. auto. }
  destruct (outcome (CRAGWorkflow.retrieve w s0)) as [s1|e1] eqn:E1.
  2:{ rewrite (pipeline_retrieve_raises _ _ _ E1).
      rewrite retrieve_shape in E1. unfold outcome in E1. simpl in E1.
      split.
      - intros Hs _ _. destruct (Hs q) as [docs Hd]. rewrite Hd in E1.
        discriminate.
      - intros e He. injection He as <-. left.
        destruct (CRAGWorkflow.vectorstore w q 5); congruence. }
  destruct (retrieve_inv _ _ _ E1) as [docs [Hdocs ->]].
  cbn [question FinancialCRAG.initial_state s0] in Hdocs.
  destruct (outcome (CRAGWorkflow.assess w (set_documents s0 docs)))
    as [s2|e2] eqn:E2.
  2:{ rewrite (pipeline_assess_raises _ _ _ _ E1 E2).
      rewrite assess_shape in E2. unfold outcome in E2. simpl in E2.
      split.
      - intros _ Ha _. destruct (Ha (CRAGAssessor.ASSESSMENT_PROMPT q
                                       (CRAGAssessor.docs_text docs)))
          as [text Hx]. rewrite Hx in E2. discriminate.
      - intros e He. injection He as <-. right. left. exists docs.
        split; [assumption |].
        destruct (CRAGAssessor.llm _ _); congruence. }
  destruct (String.eqb_spec (quality s2) "correct") as [Hq | Hq].
  - rewrite (pipeline_correct _ _ _ _ E1 E2 Hq). cbn [trace outcome fst snd].
    specialize (Hfinish s2 (trace_to_assess s0 (set_documents s0 docs))).
    split.
    + intros _ _ Hg. rewrite finish_shape.
      destruct (Hg (generate_messages s2)) as [text ->].
      eexists. reflexivity.
    + intros e He. right. right. exists (generate_messages s2).
      destruct (outcome (finish w s2)); [discriminate |].
      injection He as <-. exact Hfinish.
  - destruct (web_search_returns w s2) as [s3 E3].
    rewrite (pipeline_web _ _ _ _ _ E1 E2 Hq E3). cbn [trace outcome fst snd].
    specialize (Hfinish s3
      (trace_to_assess s0 (set_documents s0 docs)
       ++ NodeEnter "web_search" :: trace (CRAGWorkflow.web_search w s2)
       ++ [NodeExit "web_search"])%list).
    split.
    + intros _ _ Hg. rewrite finish_shape.
      destruct (Hg (generate_messages s3)) as [text ->].
      eexists. reflexivity.
    + intros e He. right. right. exists (generate_messages s3).
      destruct (outcome (finish w s3)); [discriminate |].
      injection He as <-. destruct Hfinish as [Hin Hr]. split; [| exact Hr].
      rewrite <- !app_assoc in Hin. simpl in Hin.
      rewrite <- !app_assoc in Hin. exact Hin.
Qed.

Lemma query_fails_only_with_a_service_witness :
  exists answered,
    outcome (FinancialCRAG.query (steady_session "not sure") "Why?" "AAPL")
    = Ok answered.
Proof.
  apply (proj1 (query_fails_only_with_a_service
                  (steady_session "not sure") (steady_workflow "not sure")
                  "Why?" "AAPL" eq_refl)).
  - intros x. eexists. reflexivity.
  - intros m. eexists. reflexivity.
  - intros m. eexists. reflexivity.
Defined.

(** X6. The state a run returns is consistent with the services: it
    carries the question and ticker of the call, the documents the store
    gave for that question, the verdict parsed from the assessment of
    these documents, and the answer of the chat model to the prompt
    assembled from this very state. *)
Theorem final_state_is_consistent
    (w : CRAGWorkflow.t) (q tk : string) (final : CRAGState) :
  outcome (StateGraph.invoke (FinancialCRAG.crag_graph w)
             (FinancialCRAG.initial_state q tk)) = Ok final ->
  question final = q
  /\ ticker final = tk
  /\ CRAGWorkflow.vectorstore w q 5 = Ok (documents final)
  /\ (exists response,
        CRAGAssessor.llm (CRAGWorkflow.assessor w)
          (CRAGAssessor.ASSESSMENT_PROMPT q
             (CRAGAssessor.docs_text (documents final))) = Ok response
        /\ quality final = CRAGAssessor.parse_result response)
  /\ CRAGWorkflow.llm w (generate_messages final) = Ok (generation final).
Proof.
  rewrite invoke_crag_graph. intros Hfinal.
  destruct (pipeline_completed _ _ _ Hfinal)
    as [s1 [s2 [H1 [H2 [[Hq Hp] | [Hq [s3 [H3 Hp]]]]]]]];
    rewrite Hp in Hfinal; cbn [outcome snd] in Hfinal;
    destruct (retrieve_inv _ _ _ H1) as [docs [Hdocs ->]];
    destruct (assess_inv _ _ _ H2) as [response [Hresp ->]];
    cbn [question documents set_documents FinancialCRAG.initial_state]
      in Hdocs, Hresp.
  - destruct (finish_inv _ _ _ Hfinal) as [Hgen ->].
    cbn [question ticker documents quality set_generation set_quality
         set_documents FinancialCRAG.initial_state].
    repeat split; try assumption. now exists response.
  - destruct (web_search_inv _ _ _ H3) as [text ->].
    destruct (finish_inv _ _ _ Hfinal) as [Hgen ->].
    cbn [question ticker documents quality set_generation set_quality
         set_documents set_web_results FinancialCRAG.initial_state].
    repeat split; try assumption. now exists response.
Qed.

Lemma final_state_is_consistent_witness :
  CRAGWorkflow.vectorstore (steady_workflow "not sure") "Why?" 5
  = Ok sample_documents.
Proof.
  exact (proj1 (proj2 (proj2
    (final_state_is_consistent (steady_workflow "not sure") "Why?" "AAPL"
       (mkState "Why?" "AAPL" sample_documents "[Error: timed out]"
          "not sure" "ambiguous")
       eq_refl)))).
Defined.

(** X7. What [query] returns echoes the question, carries the quality
    [correct] or [ambiguous] and no other (never [unknown], never
    [incorrect]), and reports [used_web] only next to [ambiguous]. *)
Theorem query_result_is_well_formed
    (self : FinancialCRAG.t) (w : CRAGWorkflow.t) (q tk : string)
    (answered : FinancialCRAG.QueryResult) :
  FinancialCRAG.app self = Some (FinancialCRAG.crag_graph w) ->
  outcome (FinancialCRAG.query self q tk) = Ok answered ->
  FinancialCRAG.r_question answered = q
  /\ (FinancialCRAG.r_quality answered = "correct"
      /\ FinancialCRAG.r_used_web answered = false
      \/ FinancialCRAG.r_quality answered = "ambiguous")
  /\ (FinancialCRAG.r_used_web answered = true ->
      FinancialCRAG.r_quality answered = "ambiguous").
Proof.
  intros Happ. rewrite (proj2 (query_outcome self w q tk Happ)).
  destruct (outcome (pipeline w _)) as [final|e] eqn:Hfinal; [|discriminate].
  intros H. injection H as <-. cbn [FinancialCRAG.r_question
    FinancialCRAG.r_quality FinancialCRAG.r_used_web].
  destruct (pipeline_completed _ _ _ Hfinal)
    as [s1 [s2 [H1 [H2 [[Hq Hp] | [Hq [s3 [H3 Hp]]]]]]]];
    rewrite Hp in Hfinal; cbn [outcome snd] in Hfinal;
    destruct (retrieve_inv _ _ _ H1) as [docs [_ ->]];
    destruct (assess_inv _ _ _ H2) as [response [_ ->]];
    cbn [quality set_quality] in Hq.
  - destruct (finish_inv _ _ _ Hfinal) as [_ ->].
    cbn [quality web_results set_generation set_quality set_documents
         FinancialCRAG.initial_state str_bool].
    rewrite Hq. split; [reflexivity | split; [now left | discriminate]].
  - destruct (web_search_inv _ _ _ H3) as [text ->].
    destruct (finish_inv _ _ _ Hfinal) as [_ ->].
    cbn [quality web_results set_generation set_quality set_documents
         set_web_results FinancialCRAG.initial_state].
    destruct (parse_result_cases response) as [[_ E] | [_ E]];
      [contradiction | rewrite E].
    split; [reflexivity | split; [now right | reflexivity]].
Qed.

Lemma query_result_is_well_formed_witness :
  FinancialCRAG.r_question
    (FinancialCRAG.mkResult "Why?" "Apple trades at 30 times earnings."
       "ambiguous" true) = "Why?".
Proof.
  exact (proj1
    (query_result_is_well_formed
       (sample_session "not sure" None) (sample_workflow "not sure" None)
       "Why?" "AAPL"
       (FinancialCRAG.mkResult "Why?" "Apple trades at 30 times earnings."
          "ambiguous" true)
       eq_refl eq_refl)).
Defined.

Ltac count_calls :=
  unfold count;
  cbn [filter is_search is_tavily is_llm is_node List.length]; lia.

Ltac named_call :=
  let H := fresh "H" in
  intros ? ? H; simpl in H;
  repeat (destruct H as [H | H];
          [try discriminate; try (injection H as <- <-; now split) |]);
  contradiction.

Ltac bounded_calls :=
  split; [count_calls |];
  split; [named_call |];
  split; [count_calls |];
  split; [named_call |];
  split; [count_calls |];
  split; [count_calls | eexists; reflexivity].

(** X8. In every run the vector store is asked once, for the question
    and five documents; the Tavily client is asked at most once, for the
    ticker, the word [stock] and the question, and three results; the chat
    model is asked at most twice; and at most four nodes run, retrieve
    first. *)
Theorem run_calls_are_bounded (w : CRAGWorkflow.t) (q tk : string) :
  let run := trace (StateGraph.invoke (FinancialCRAG.crag_graph w)
                      (FinancialCRAG.initial_state q tk)) in
  count is_search run = 1
  /\ (forall x k, In (SimilaritySearch x k) run -> x = q /\ k = 5)
  /\ count is_tavily run <= 1
  /\ (forall x n, In (TavilySearch x n) run ->
                  x = tk ++ " stock " ++ q /\ n = 3)
  /\ count is_llm run <= 2
  /\ count is_node run <= 4
  /\ (exists rest, run = NodeEnter "retrieve" :: SimilaritySearch q 5 :: rest).
Proof.
  intros run. subst run. rewrite invoke_crag_graph. unfold pipeline.
  rewrite retrieve_shape. cbn [question FinancialCRAG.initial_state].
  destruct (CRAGWorkflow.vectorstore w q 5) as [docs|e];
    cbn [emit bind ret app trace fst]; [| bounded_calls].
  rewrite assess_shape.
  cbn [question documents set_documents FinancialCRAG.initial_state].
  destruct (CRAGAssessor.llm _ _) as [response|e];
    cbn [emit bind ret app trace fst]; [| bounded_calls].
  cbn [quality set_quality].
  destruct (_ =? "correct"); rewrite ?web_search_shape;
    [| destruct (CRAGWorkflow.tavily_client w) as [client|]]; cbv zeta;
    cbn [emit bind ret app trace fst]; rewrite generate_shape;
    destruct (CRAGWorkflow.llm w _);
    cbn [emit bind ret app trace fst ticker question set_quality
         set_documents FinancialCRAG.initial_state];
    bounded_calls.
Qed.

(** ** More on the context *)

(** X9. When the quality is not [correct] the context outgrows the web
    text by 14 characters of headers and by the local part, which never
    exceeds 1602 characters whatever the documents are. *)
Theorem context_size_with_web (state : CRAGState) :
  quality state <> "correct" ->
  String.length (web_results state) + 14
  <= String.length (CRAGWorkflow.generate_context state)
  /\ String.length (CRAGWorkflow.generate_context state)
     <= String.length (web_results state) + 1616.
Proof.
  intros Hq. apply String.eqb_neq in Hq.
  unfold CRAGWorkflow.generate_context. rewrite Hq. cbv zeta.
  pose proof (take_parts_bound 800 2 (documents state)) as Hlocal.
  rewrite !append_length. change (String.length "Local:") with 6.
  change (String.length LF) with 1. change (String.length LFLF) with 2.
  change (String.length "Web:") with 4. lia.
Qed.

Lemma context_size_with_web_witness :
  String.length
    (CRAGWorkflow.generate_context
       (mkState "Why?" "AAPL" sample_documents "[Web search disabled]" ""
          "ambiguous"))
  <= String.length "[Web search disabled]" + 1616.
Proof.
  exact (proj2 (context_size_with_web
                  (mkState "Why?" "AAPL" sample_documents
                     "[Web search disabled]" "" "ambiguous")
                  ltac:(discriminate))).
Defined.

Lemma take_whole_parts (m : nat) (docs : list Document) :
  Forall (fun d => String.length (page_content d) <= m) docs ->
  map (fun d => str_take m (page_content d)) docs = map page_content docs.
Proof.
  induction 1 as [|d docs Hd _ IH]; simpl; [reflexivity |].
  now rewrite IH, str_take_all.
Qed.

(** X10. With at most two retrieved documents, none longer than 800
    characters, nothing is lost on the web branch: its local part is the
    whole context of the [correct] branch. *)
Theorem short_documents_pass_whole (state : CRAGState) :
  quality state <> "correct" ->
  List.length (documents state) <= 2 ->
  Forall (fun d => String.length (page_content d) <= 800) (documents state) ->
  CRAGWorkflow.generate_context state
  = "Local:" ++ LF
    ++ CRAGWorkflow.generate_context (set_quality state "correct")
    ++ LFLF ++ "Web:" ++ LF ++ web_results state.
Proof.
  intros Hq Hlen Hall. apply String.eqb_neq in Hq.
  unfold CRAGWorkflow.generate_context. rewrite Hq.
  cbn [quality documents set_quality String.eqb Ascii.eqb Bool.eqb]. cbv zeta.
  rewrite firstn_all2 by exact Hlen. now rewrite take_whole_parts.
Qed.

Lemma short_documents_pass_whole_witness :
  CRAGWorkflow.generate_context
    (mkState "Why?" "AAPL" sample_documents "[Web search disabled]" ""
       "ambiguous")
  = "Local:" ++ LF
    ++ CRAGWorkflow.generate_context
         (mkState "Why?" "AAPL" sample_documents "[Web search disabled]" ""
            "correct")
    ++ LFLF ++ "Web:" ++ LF ++ "[Web search disabled]".
Proof.
  apply (short_documents_pass_whole
           (mkState "Why?" "AAPL" sample_documents "[Web search disabled]" ""
              "ambiguous")).
  - discriminate.
  - simpl. lia.
  - repeat (apply Forall_cons; [simpl; lia |]). apply Forall_nil.
Defined.

(** ** The news digest *)

Lemma article_body_raises_iff (a : Article) :
  (exists e, DataExtractor.article_body a = Raise e) <-> lacks_body a = true.
Proof.
  unfold DataExtractor.article_body, lacks_body.
  destruct (description a) as [d|]; [destruct (str_bool d) |];
    destruct (content a); simpl; split; intros H;
    try discriminate; try reflexivity; try (eexists; reflexivity);
    destruct H as [e H]; discriminate.
Qed.

Lemma format_article_raises_iff (a : Article) :
  (exists e, DataExtractor.format_article a = Raise e) <-> lacks_body a = true.
Proof.
  rewrite <- article_body_raises_iff. unfold DataExtractor.format_article.
  destruct (DataExtractor.article_body a) as [body|e]; split;
    intros [e' H]; try discriminate; now exists e.
Qed.

Lemma format_articles_raises_iff (l : list Article) :
  (exists e, DataExtractor.format_articles l = Raise e)
  <-> exists a, In a l /\ lacks_body a = true.
Proof.
  induction l as [|a l IH]; simpl.
  - split; [intros [e H]; discriminate | intros [a [[] _]]].
  - destruct (DataExtractor.format_article a) as [s|e] eqn:Ea.
    + assert (Ha : lacks_body a = false).
      { destruct (lacks_body a) eqn:E; [| reflexivity].
        apply format_article_raises_iff in E as [e E]. congruence. }
      destruct (DataExtractor.format_articles l) as [rest|e] eqn:El.
      * split; [intros [e H]; discriminate |].
        intros [b [[<- | Hin] Hb]]; [congruence |].
        destruct (proj2 IH) as [e H]; [now exists b | discriminate].
      * split; [| intros _; now exists e].
        intros _. destruct (proj1 IH) as [b [Hin Hb]]; [now exists e |].
        exists b. split; [now right | assumption].
    + split; [| intros _; now exists e].
      intros _. exists a. split; [now left |].
      apply format_article_raises_iff. now exists e.
Qed.

Lemma format_articles_entries (l : list Article) (entries : list string) :
  DataExtractor.format_articles l = Ok entries ->
  List.length entries = List.length l
  /\ Forall (fun s => exists rest, s = "[" ++ rest) entries.
Proof.
  revert entries. induction l as [|a l IH]; simpl; intros entries H.
  - injection H as <-. split; [reflexivity | constructor].
  - unfold DataExtractor.format_article in H.
    destruct (DataExtractor.article_body a) as [body|e]; [|discriminate].
    destruct (DataExtractor.format_articles l) as [rest|e]; [|discriminate].
    injection H as <-. destruct (IH rest eq_refl) as [Hlen Hall].
    split; [simpl; now rewrite Hlen |].
    constructor; [eexists; reflexivity | exact Hall].
Qed.

Lemma get_news_try_shape (self : DataExtractor.t) (tk s : string) :
  DataExtractor.get_news_try self tk = Ok s ->
  s = "No recent news." \/ exists rest, s = "[" ++ rest.
Proof.
  unfold DataExtractor.get_news_try.
  destruct (DataExtractor.yf_longName self tk) as [name|e]; [|discriminate].
  destruct (DataExtractor.newsapi_get_everything self _) as [l|e];
    [|discriminate].
  destruct (DataExtractor.format_articles _) as [entries|e] eqn:E;
    [|discriminate].
  intros H. injection H as <-.
  destruct entries as [|x entries]; [now left | right].
  apply format_articles_entries in E as [_ Hall].
  inversion Hall as [|? ? [rest ->] _]; subst.
  destruct entries; eexists; reflexivity.
Qed.

(** X11. [get_news] always returns a text, and never an empty one: the
    fixed sentence for a failure, the fixed sentence for no article, or a
    digest that opens with the bracketed date of its first entry. *)
Theorem news_is_never_empty (self : DataExtractor.t) (tk : string) :
  (DataExtractor.get_news self tk = "News unavailable."
   \/ DataExtractor.get_news self tk = "No recent news."
   \/ exists rest, DataExtractor.get_news self tk = "[" ++ rest)
  /\ DataExtractor.get_news self tk <> "".
Proof.
  unfold DataExtractor.get_news.
  destruct (DataExtractor.get_news_try self tk) as [s|e] eqn:E.
  - destruct (get_news_try_shape _ _ _ E) as [-> | [rest ->]].
    + split; [auto | discriminate].
    + split; [right; right; now exists rest | discriminate].
  - split; [auto | discriminate].
Qed.

(** X12. When both services answer, the digest is lost, and replaced by
    ["News unavailable."], exactly when one of the first ten articles has
    neither a description nor a content: a single such article hides all
    the others, and an article after the tenth never does. *)
Theorem news_unavailable_iff
    (self : DataExtractor.t) (tk : string) (name : option string)
    (answer : option (list Article)) :
  DataExtractor.yf_longName self tk = Ok name ->
  DataExtractor.newsapi_get_everything self
    (match name with Some n => n | None => tk end) = Ok answer ->
  (DataExtractor.get_news self tk = "News unavailable."
   <-> exists a,
         In a (firstn 10 (match answer with Some l => l | None => [] end))
         /\ lacks_body a = true).
Proof.
  intros Hname Hnews. rewrite <- format_articles_raises_iff.
  unfold DataExtractor.get_news.
  destruct (DataExtractor.get_news_try self tk) as [s|e] eqn:E.
  - pose proof (get_news_try_shape _ _ _ E) as Hs.
    unfold DataExtractor.get_news_try in E. rewrite Hname, Hnews in E.
    destruct (DataExtractor.format_articles _) as [entries|e'];
      [| discriminate].
    split; [| intros [e' H]; discriminate].
    intros ->. destruct Hs as [Hs | [rest Hs]]; discriminate.
  - unfold DataExtractor.get_news_try in E. rewrite Hname, Hnews in E.
    destruct (DataExtractor.format_articles _) as [entries|e'];
      [discriminate |].
    split; [intros _; now exists e' | reflexivity].
Qed.

Lemma news_unavailable_iff_witness :
  DataExtractor.get_news bad_article_extractor "AAPL" = "News unavailable.".
Proof.
  apply (proj2 (news_unavailable_iff bad_article_extractor "AAPL"
                  (Some "Apple Inc.")
                  (Some [mkArticle "2024-05-02T20:30:00Z"
                           "Apple reports earnings" (Some "Revenue rose.")
                           None;
                         mkArticle "2024-05-03T08:00:00Z" "Removed"
                           (Some "") None])
                  eq_refl eq_refl)).
  exists (mkArticle "2024-05-03T08:00:00Z" "Removed" (Some "") None).
  split; [simpl; auto | reflexivity].
Defined.

(** ** Sessions *)

Lemma setup_ok_inv (self self' : FinancialCRAG.t)
    (Chroma : list Document -> result VectorStore) (tk : string) :
  FinancialCRAG.setup self Chroma tk = (self', Ok tt) ->
  exists store,
    self' = FinancialCRAG.mk (FinancialCRAG.extractor self)
              (FinancialCRAG.llm self) (FinancialCRAG.assessor self)
              (FinancialCRAG.tavily self) (Some store)
              (Some (FinancialCRAG.crag_graph
                       (CRAGWorkflow.mk store (FinancialCRAG.llm self)
                          (FinancialCRAG.assessor self)
                          (FinancialCRAG.tavily self)))).
Proof.
  unfold FinancialCRAG.setup.
  destruct (DataExtractor.get_stock_data _ tk) as [text|e]; [|discriminate].
  destruct (Chroma _) as [store|e]; [|discriminate].
  rewrite crag_graph_valid. intros H. injection H as <-. now exists store.
Qed.

Lemma setup_raise_inv (self self' : FinancialCRAG.t)
    (Chroma : list Document -> result VectorStore) (tk : string) (e : exn) :
  FinancialCRAG.setup self Chroma tk = (self', Raise e) -> self' = self.
Proof.
  unfold FinancialCRAG.setup.
  destruct (DataExtractor.get_stock_data _ tk) as [text|e0].
  - destruct (Chroma _) as [store|e1].
    + rewrite crag_graph_valid. discriminate.
    + intros H. now injection H as <- _.
  - intros H. now injection H as <- _.
Qed.



Lemma pipeline_without_client (w : CRAGWorkflow.t) (s0 : CRAGState) :
  CRAGWorkflow.tavily_client w = None ->
  count is_tavily (trace (pipeline w s0)) = 0.
Proof.
  intros Hnone. unfold pipeline. rewrite retrieve_shape.
  destruct (CRAGWorkflow.vectorstore w _ 5) as [docs|e];
    cbn [emit bind ret app trace fst]; [| reflexivity].
  rewrite assess_shape.
  destruct (CRAGAssessor.llm _ _) as [response|e];
    cbn [emit bind ret app trace fst]; [| reflexivity].
  destruct (_ =? "correct"); rewrite ?web_search_shape, ?Hnone;
    cbn [emit bind ret app trace fst]; rewrite generate_shape;
    destruct (CRAGWorkflow.llm w _); reflexivity.
Qed.

(** X14. A system built without a Tavily key (unset or empty) and set
    up never calls the Tavily service, whatever is asked; in its answers
    [used_web] only says that the quality was not [correct]. *)
Theorem keyless_system_never_searches
    (extractor : DataExtractor.t) (llm : ChatOpenAI)
    (TavilyClient_new : string -> TavilyClient) (key : option string)
    (Chroma : list Document -> result VectorStore) (tk : string)
    (self : FinancialCRAG.t) :
  CRAGCLI.key_set key = false ->
  FinancialCRAG.setup
    (FinancialCRAG.init extractor llm TavilyClient_new key) Chroma tk
  = (self, Ok tt) ->
  forall q tk',
    count is_tavily (trace (FinancialCRAG.query self q tk')) = 0
    /\ forall answered,
         outcome (FinancialCRAG.query self q tk') = Ok answered ->
         (FinancialCRAG.r_used_web answered = true
          <-> FinancialCRAG.r_quality answered <> "correct").
Proof.
  intros Hkey Hsetup q tk'.
  destruct (setup_ok_inv _ _ _ _ Hsetup) as [store ->].
  clear Hsetup.
  pose (w := CRAGWorkflow.mk store llm (CRAGAssessor.mk llm)
               (FinancialCRAG.tavily
                  (FinancialCRAG.init extractor llm TavilyClient_new key))).
  assert (Hnone : CRAGWorkflow.tavily_client w = None).
  { unfold w. cbn [CRAGWorkflow.tavily_client FinancialCRAG.tavily
                   FinancialCRAG.init].
    destruct key as [k|]; [| reflexivity].
    simpl in Hkey. now rewrite Hkey. }
  match goal with
  | |- context [FinancialCRAG.query ?s _ _] =>
      destruct (query_outcome s w q tk' eq_refl) as [Ht Ho]
  end.
  rewrite Ht, Ho. split; [now apply pipeline_without_client |].
  intros answered.
  destruct (outcome (pipeline w _)) as [final|e] eqn:Hfinal; [|discriminate].
  intros H. injection H as <-.
  cbn [FinancialCRAG.r_used_web FinancialCRAG.r_quality].
  destruct (pipeline_completed _ _ _ Hfinal)
    as [s1 [s2 [H1 [H2 [[Hq Hp] | [Hq [s3 [H3 Hp]]]]]]]];
    rewrite Hp in Hfinal; cbn [outcome snd] in Hfinal;
    destruct (retrieve_inv _ _ _ H1) as [docs [_ ->]];
    destruct (assess_inv _ _ _ H2) as [response [_ ->]];
    cbn [quality set_quality] in Hq.
  - destruct (finish_inv _ _ _ Hfinal) as [_ ->].
    cbn [quality web_results set_generation set_quality set_documents
         FinancialCRAG.initial_state str_bool].
    rewrite Hq. split; [discriminate | congruence].
  - rewrite web_search_shape, Hnone in H3. unfold outcome in H3.
    simpl in H3. injection H3 as <-.
    destruct (finish_inv _ _ _ Hfinal) as [_ ->].
    cbn [quality web_results set_generation set_quality set_documents
         set_web_results FinancialCRAG.initial_state str_bool].
    split; [intros _; exact Hq | reflexivity].
Qed.

Lemma keyless_system_never_searches_witness :
  count is_tavily
    (trace (FinancialCRAG.query (sample_session "not sure" None)
              "Why did Apple stock move today?" "AAPL")) = 0.
Proof.
  exact (proj1
    (keyless_system_never_searches sample_extractor (sample_llm "not sure")
       (fun _ => sample_tavily) (Some "") sample_Chroma "AAPL"
       (sample_session "not sure" None) eq_refl eq_refl
       "Why did Apple stock move today?" "AAPL")).
Defined.

(** ** The command shell *)

Example shell_session_sample :
  snd (fst (CRAGCLI.run (sample_env "not sure")
              [("setup aapl", false); ("Why did Apple stock move?", false);
               ("EXIT", true); ("help", false)]))
  = [CRAGCLI.Banner; CRAGCLI.KeysOK; CRAGCLI.Ready "AAPL";
     CRAGCLI.Quality CRAGCLI.WarningSign "AMBIGUOUS"; CRAGCLI.Web true;
     CRAGCLI.Answer "Apple trades at 30 times earnings."; CRAGCLI.BlankLine;
     CRAGCLI.Bye].
Proof. reflexivity. Qed.

Lemma cli_setup_cases (env : CRAGCLI.Env) (self : CRAGCLI.t) (t : string) :
  let tk := str_strip (CRAGCLI.str_upper env t) in
  let system :=
    match CRAGCLI.system self with
    | Some s => s
    | None => CRAGCLI.FinancialCRAG_new env
    end in
  (tk = "" /\ CRAGCLI.setup env self t = (self, [CRAGCLI.ProvideTicker], false))
  \/ (tk <> ""
      /\ exists system',
           FinancialCRAG.setup system (CRAGCLI.Chroma_from_documents env) tk
           = (system', Ok tt)
           /\ CRAGCLI.setup env self t
              = (CRAGCLI.mk (Some system') (Some tk), [CRAGCLI.Ready tk], true))
  \/ (tk <> ""
      /\ exists e,
           FinancialCRAG.setup system (CRAGCLI.Chroma_from_documents env) tk
           = (system, Raise e)
           /\ CRAGCLI.setup env self t
              = (CRAGCLI.mk (Some system) (CRAGCLI.ticker self),
                 [CRAGCLI.Error (exn_str e)], false)).
Proof.
  intros tk system. unfold CRAGCLI.setup. fold tk. fold system.
  destruct tk as [|c tk'] eqn:Etk; [left; now split |].
  right. cbn [str_bool negb].
  destruct (FinancialCRAG.setup system _ _) as [system' [[]|e]] eqn:E.
  - left. split; [discriminate |]. now exists system'.
  - right. split; [discriminate |]. exists e.
    rewrite (setup_raise_inv _ _ _ _ _ E) in *. now split.
Qed.

Lemma cli_setup_keeps (env : CRAGCLI.Env) (self self' : CRAGCLI.t)
    (t : string) (shown : list CRAGCLI.Output) (ok : bool) :
  CRAGCLI.setup env self t = (self', shown, ok) ->
  (cli_ready self -> cli_ready self')
  /\ ((forall s, CRAGCLI.system self = Some s ->
                 FinancialCRAG.tavily s
                 = FinancialCRAG.tavily (CRAGCLI.FinancialCRAG_new env)) ->
      forall s, CRAGCLI.system self' = Some s ->
                FinancialCRAG.tavily s
                = FinancialCRAG.tavily (CRAGCLI.FinancialCRAG_new env)).
Proof.
  intros H.
  destruct (cli_setup_cases env self t)
    as [[_ E] | [[Htk [system' [Es E]]] | [Htk [e [Es E]]]]];
    rewrite E in H; injection H as <- <- <-.
  - now split.
  - destruct (setup_ok_inv _ _ _ _ Es) as [store Hs]. split.
    + intros _. unfold cli_ready. cbn [CRAGCLI.ticker CRAGCLI.system].
      split; [exact Htk |]. eexists. eexists.
      split; [reflexivity |]. rewrite Hs. reflexivity.
    + intros Hkey s Hs'. cbn [CRAGCLI.system] in Hs'. injection Hs' as <-.
      rewrite Hs. cbn [FinancialCRAG.tavily].
      destruct (CRAGCLI.system self) as [s0|]; [now apply Hkey | reflexivity].
  - split.
    + unfold cli_ready. cbn [CRAGCLI.ticker CRAGCLI.system].
      destruct (CRAGCLI.ticker self) as [tk0|]; [| trivial].
      intros [Hne [s0 [w [Hs0 Happ]]]]. rewrite Hs0.
      split; [exact Hne |]. now exists s0, w.
    + intros Hkey s Hs'. cbn [CRAGCLI.system] in Hs'. injection Hs' as <-.
      destruct (CRAGCLI.system self) as [s0|]; [now apply Hkey | reflexivity].
Qed.

Lemma cli_turn_state (env : CRAGCLI.Env) (self self' : CRAGCLI.t)
    (line : string) (confirm stop : bool) (shown : list CRAGCLI.Output)
    (calls : list Event) :
  CRAGCLI.turn env self line confirm = (self', shown, calls, stop) ->
  self' = self
  \/ exists t shown' ok, CRAGCLI.setup env self t = (self', shown', ok).
Proof.
  unfold CRAGCLI.turn. cbv zeta.
  destruct (negb (str_bool (str_strip line)));
    [intros H; injection H as <- _ _ _; now left |].
  destruct (CRAGCLI.split_maxsplit_1 _) as [|word rest];
    [intros H; injection H as <- _ _ _; now left |].
  destruct (_ || _).
  { destruct confirm; intros H; injection H as <- _ _ _; now left. }
  destruct (str_lower word =? "help");
    [intros H; injection H as <- _ _ _; now left |].
  destruct (str_lower word =? "setup").
  { destruct (CRAGCLI.setup env self _) as [[self1 shown1] ok] eqn:E.
    intros H. injection H as <- _ _ _. right. eexists. exists shown1, ok.
    exact E. }
  destruct (str_lower word =? "query").
  { destruct (CRAGCLI.query env self _).
    intros H; injection H as <- _ _ _; now left. }
  destruct (CRAGCLI.ticker self) as [tk|];
    [destruct (str_bool tk); [destruct (CRAGCLI.query env self _) |] |];
    intros H; injection H as <- _ _ _; now left.
Qed.

Lemma cli_loop_keeps (env : CRAGCLI.Env) (P : CRAGCLI.t -> Prop) :
  (forall self self' t shown ok,
     CRAGCLI.setup env self t = (self', shown, ok) -> P self -> P self') ->
  forall typed self, P self -> P (fst (fst (CRAGCLI.loop env self typed))).
Proof.
  intros Hsetup. induction typed as [|[line confirm] typed IH]; intros self HP;
    [exact HP |].
  cbn [CRAGCLI.loop].
  destruct (CRAGCLI.turn env self line confirm)
    as [[[self1 shown] calls] stop] eqn:E.
  assert (HP1 : P self1).
  { destruct (cli_turn_state _ _ _ _ _ _ _ _ E) as [-> | [t [sh [ok Hs]]]];
      [exact HP | exact (Hsetup _ _ _ _ _ Hs HP)]. }
  destruct stop; [exact HP1 |].
  specialize (IH self1 HP1).
  destruct (CRAGCLI.loop env self1 typed) as [[self2 shown2] calls2].
  exact IH.
Qed.

Lemma cli_query_cases (env : CRAGCLI.Env) (self : CRAGCLI.t)
    (question : string) :
  cli_ready self ->
  (snd (CRAGCLI.query env self question) = []
   /\ (fst (CRAGCLI.query env self question) = [CRAGCLI.RunSetupFirst]
       \/ fst (CRAGCLI.query env self question) = [CRAGCLI.ProvideQuestion]))
  \/ exists system w tk,
       CRAGCLI.system self = Some system
       /\ CRAGCLI.ticker self = Some tk
       /\ FinancialCRAG.app system = Some (FinancialCRAG.crag_graph w)
       /\ snd (CRAGCLI.query env self question)
          = trace (pipeline w (FinancialCRAG.initial_state question tk)).
Proof.
  unfold cli_ready, CRAGCLI.query.
  destruct (CRAGCLI.ticker self) as [tk|];
    [| intros _; left; destruct (CRAGCLI.system self); split; auto].
  intros [Hne [system [w [-> Happ]]]].
  destruct tk as [|c tk']; [contradiction |]. cbn [str_bool negb].
  destruct question as [|c' question']; cbn [str_bool negb];
    [left; split; auto |].
  right. exists system, w, (String c tk').
  split; [reflexivity | split; [reflexivity | split; [exact Happ |]]].
  rewrite (query_shape _ _ _ _ Happ).
  destruct (outcome (pipeline w _)) as [final|e]; [| reflexivity].
  destruct (CRAGCLI.display env _); reflexivity.
Qed.

(** X15. Whatever is typed, the shell holds a ticker only together with
    a system that is set up; so a query either is turned down without a
    call to any service, or runs the pipeline of that session:
    [FinancialCRAG.query] is never reached before a successful setup. *)
Theorem shell_queries_only_ready_sessions
    (env : CRAGCLI.Env) (typed : list (string * bool)) (question : string) :
  let self := fst (fst (CRAGCLI.run env typed)) in
  cli_ready self
  /\ ((snd (CRAGCLI.query env self question) = []
       /\ (fst (CRAGCLI.query env self question) = [CRAGCLI.RunSetupFirst]
           \/ fst (CRAGCLI.query env self question)
              = [CRAGCLI.ProvideQuestion]))
      \/ exists system w tk,
           CRAGCLI.system self = Some system
           /\ CRAGCLI.ticker self = Some tk
           /\ FinancialCRAG.app system = Some (FinancialCRAG.crag_graph w)
           /\ snd (CRAGCLI.query env self question)
              = trace (pipeline w (FinancialCRAG.initial_state question tk))).
Proof.
  intros self.
  assert (Hready : cli_ready self).
  { subst self. unfold CRAGCLI.run.
    destruct (CRAGCLI.missing_keys env); [| exact I].
    pose proof (cli_loop_keeps env cli_ready
                  (fun a b t sh ok H => proj1 (cli_setup_keeps env a b t sh ok H))
                  typed CRAGCLI.init I) as H.
    destruct (CRAGCLI.loop env CRAGCLI.init typed) as [[s1 sh] cl].
    exact H. }
  split; [exact Hready | now apply cli_query_cases].
Qed.

(** X16. The shell starts only with the three keys set, so every system
    it creates has a Tavily client, and keeps it: under the shell the web
    search is never disabled. *)
Theorem shell_keeps_web_search_on
    (env : CRAGCLI.Env) (typed : list (string * bool)) (s : FinancialCRAG.t) :
  CRAGCLI.system (fst (fst (CRAGCLI.run env typed))) = Some s ->
  FinancialCRAG.tavily s <> None
  /\ CRAGCLI.missing_keys env = [].
Proof.
  unfold CRAGCLI.run.
  destruct (CRAGCLI.missing_keys env) as [|k ks] eqn:Ekeys; [| discriminate].
  assert (Hnew : FinancialCRAG.tavily (CRAGCLI.FinancialCRAG_new env) <> None).
  { unfold CRAGCLI.missing_keys in Ekeys.
    destruct (CRAGCLI.key_set (CRAGCLI.OPENAI_API_KEY env));
      [| discriminate].
    destruct (CRAGCLI.key_set (CRAGCLI.NEWSAPI_API_KEY env));
      [| discriminate].
    destruct (CRAGCLI.key_set (CRAGCLI.TAVILY_API_KEY env)) eqn:Ek;
      [| discriminate].
    unfold CRAGCLI.FinancialCRAG_new, FinancialCRAG.init.
    cbn [FinancialCRAG.tavily].
    destruct (CRAGCLI.TAVILY_API_KEY env) as [key|]; [| discriminate].
    simpl in Ek. rewrite Ek. discriminate. }
  pose proof (cli_loop_keeps env
                (fun self => forall s0, CRAGCLI.system self = Some s0 ->
                   FinancialCRAG.tavily s0
                   = FinancialCRAG.tavily (CRAGCLI.FinancialCRAG_new env))
                (fun a b t sh ok H => proj2 (cli_setup_keeps env a b t sh ok H))
                typed CRAGCLI.init) as H.
  destruct (CRAGCLI.loop env CRAGCLI.init typed) as [[s1 sh] cl].
  cbn [fst] in *. intros Hs. split; [| reflexivity].
  rewrite (H ltac:(discriminate) s Hs). exact Hnew.
Qed.

Lemma shell_keeps_web_search_on_witness :
  CRAGCLI.missing_keys (sample_env "correct") = [].
Proof.
  exact (proj2
    (shell_keeps_web_search_on (sample_env "correct")
       [("setup aapl", false)]
       (sample_session "correct" (Some sample_tavily)) eq_refl)).
Defined.

(** X17. A [setup] the shell reports as failed changes nothing for the
    user of a shell whose ticker, if any, has its session: the ticker
    stays, a system that existed stays as it was, and every query is
    answered as before. *)
Theorem failed_setup_keeps_the_shell
    (env : CRAGCLI.Env) (self self' : CRAGCLI.t) (t : string)
    (shown : list CRAGCLI.Output) :
  cli_ready self ->
  CRAGCLI.setup env self t = (self', shown, false) ->
  CRAGCLI.ticker self' = CRAGCLI.ticker self
  /\ (forall s, CRAGCLI.system self = Some s -> self' = self)
  /\ (forall env' question,
        CRAGCLI.query env' self' question = CRAGCLI.query env' self question).
Proof.
  intros Hready H.
  destruct (cli_setup_cases env self t)
    as [[_ E] | [[Htk [system' [Es E]]] | [Htk [e [Es E]]]]];
    rewrite E in H; [| discriminate |]; injection H as <- <-.
  - repeat split.
  - split; [reflexivity | split].
    + intros s Hs. rewrite Hs. destruct self as [sys tk0].
      cbn [CRAGCLI.system CRAGCLI.ticker] in *. now rewrite Hs.
    + intros env' question. unfold CRAGCLI.query.
      cbn [CRAGCLI.system CRAGCLI.ticker].
      destruct (CRAGCLI.system self) as [s0|] eqn:Hs; [reflexivity |].
      unfold cli_ready in Hready.
      destruct (CRAGCLI.ticker self) as [tk0|]; [| reflexivity].
      destruct Hready as [_ [s1 [w [Hs1 _]]]]. congruence.
Qed.

Lemma failed_setup_keeps_the_shell_witness :
  fst (fst (CRAGCLI.setup (unindexed_env "correct") (sample_shell "correct")
              "msft"))
  = sample_shell "correct".
Proof.
  refine (proj1 (proj2
    (failed_setup_keeps_the_shell (unindexed_env "correct")
       (sample_shell "correct")
       (fst (fst (CRAGCLI.setup (unindexed_env "correct")
                    (sample_shell "correct") "msft")))
       "msft" [CRAGCLI.Error "invalid api key"] _ eq_refl))
    (sample_session "correct" (Some sample_tavily)) eq_refl).
  split; [discriminate |].
  exists (sample_session "correct" (Some sample_tavily)),
         (sample_workflow "correct" (Some sample_tavily)).
  split; reflexivity.
Defined.




Lemma lstrip_head (s r : string) (c : ascii) :
  str_lstrip s = String c r -> is_space c = false.
Proof.
  induction s as [|a s IH]; simpl; [discriminate |].
  destruct (is_space a) eqn:Ea; [exact IH |].
  intros H. injection H as <- _. exact Ea.
Qed.

Lemma lstrip_gap (s : string) :
  exists gap, s = gap ++ str_lstrip s /\ str_lstrip gap = "".
Proof.
  induction s as [|a s [gap [Hs Hg]]]; simpl; [now exists "" |].
  destruct (is_space a) eqn:Ea.
  - exists (String a gap). simpl. rewrite Ea. split; [now rewrite <- Hs | exact Hg].
  - now exists "".
Qed.

Lemma rstrip_head (s r : string) (c : ascii) :
  str_rstrip s = String c r -> exists r', s = String c r'.
Proof.
  destruct s as [|a s]; simpl; [discriminate |].
  destruct (str_rstrip s); [destruct (is_space a); [discriminate |] |];
    intros H; injection H as <- _; now exists s.
Qed.

Lemma strip_head (s r : string) (c : ascii) :
  str_strip s = String c r -> is_space c = false.
Proof.
  unfold str_strip. intros H. apply rstrip_head in H as [r' H].
  now apply lstrip_head in H.
Qed.

Lemma first_word_no_space (s : string) :
  no_space (CRAGCLI.first_word s) = true.
Proof.
  induction s as [|a s IH]; simpl; [reflexivity |].
  destruct (is_space a) eqn:Ea; [reflexivity |]. simpl. now rewrite Ea, IH.
Qed.

Lemma after_first_word_head (s r : string) (c : ascii) :
  CRAGCLI.after_first_word s = String c r -> is_space c = false.
Proof.
  induction s as [|a s IH]; simpl; [discriminate |].
  destruct (is_space a); [apply lstrip_head | exact IH].
Qed.

Lemma word_gap_rest (s : string) :
  exists gap,
    s = CRAGCLI.first_word s ++ gap ++ CRAGCLI.after_first_word s
    /\ str_lstrip gap = "".
Proof.
  induction s as [|a s [gap [Hs Hg]]]; simpl; [now exists "" |].
  destruct (is_space a) eqn:Ea.
  - destruct (lstrip_gap s) as [g [Hs' Hg']]. exists (String a g).
    simpl. rewrite Ea. split; [now rewrite <- Hs' | exact Hg'].
  - exists gap. simpl. split; [now rewrite <- Hs | exact Hg].
Qed.

(** X19. A line that is not blank always splits into a command word and
    its arguments: the word is not empty and holds no white space, the
    arguments do not start with white space, the line is the word, a gap
    of white space and the arguments, and [parts[0]] never fails. *)
Theorem typed_line_splits (line : string) :
  str_strip line <> "" ->
  exists word args gap,
    (CRAGCLI.split_maxsplit_1 (str_strip line) = [word] /\ args = ""
     \/ CRAGCLI.split_maxsplit_1 (str_strip line) = [word; args]
        /\ args <> "")
    /\ word <> ""
    /\ no_space word = true
    /\ str_lstrip args = args
    /\ str_lstrip gap = ""
    /\ str_strip line = word ++ gap ++ args.
Proof.
  intros Hne. unfold CRAGCLI.split_maxsplit_1.
  destruct (str_strip line) as [|c r] eqn:Es; [contradiction |].
  pose proof (strip_head _ _ _ Es) as Hc.
  cbn [str_lstrip]. rewrite Hc. cbn [str_bool negb].
  destruct (word_gap_rest (String c r)) as [gap [Hs Hg]].
  exists (CRAGCLI.first_word (String c r)),
         (CRAGCLI.after_first_word (String c r)), gap.
  split; [| split; [| split; [| split; [| split]]]].
  - destruct (CRAGCLI.after_first_word (String c r)); cbn [str_bool negb];
      [left; now split | right; split; [reflexivity | discriminate]].
  - simpl. rewrite Hc. discriminate.
  - apply first_word_no_space.
  - destruct (CRAGCLI.after_first_word (String c r)) as [|a r'] eqn:Ea;
      [reflexivity |].
    apply after_first_word_head in Ea. simpl. now rewrite Ea.
  - exact Hg.
  - exact Hs.
Qed.

Lemma typed_line_splits_witness :
  exists word args gap,
    (CRAGCLI.split_maxsplit_1 (str_strip "  Setup   aapl ") = [word]
     /\ args = ""
     \/ CRAGCLI.split_maxsplit_1 (str_strip "  Setup   aapl ") = [word; args]
        /\ args <> "")
    /\ word <> ""
    /\ no_space word = true
    /\ str_lstrip args = args
    /\ str_lstrip gap = ""
    /\ str_strip "  Setup   aapl " = word ++ gap ++ args.
Proof.
  exact (typed_line_splits "  Setup   aapl " ltac:(discriminate)).
Defined.
